(** * MC44BS373CA RF modulator controller: a shallow embedding of
      [controller/controller.ino] and the properties of its configuration
      engine.

    The sketch runs on an ATmega328: [int] is 16 bits wide, [long] 32 bits,
    structs are packed without padding and multi-byte values are stored
    little-endian.  Machine integers are integers of [Z] with the
    conversions to the unsigned types written out. *)

From Stdlib Require Import ZArith List Bool Lia Ascii String.
Import ListNotations.
Local Open Scope Z_scope.

(** ** Machine integers and characters *)

Definition uint8_t (x : Z) : Z := x mod 2 ^ 8.
Definition uint16_t (x : Z) : Z := x mod 2 ^ 16.
Definition uint32_t (x : Z) : Z := x mod 2 ^ 32.

(** A character literal, as the byte the compiler emits for it. *)
Definition chr (c : ascii) : Z := Z.of_N (N_of_ascii c).

(** ** Constants of the sketch *)

Definition CURRENTSETTINGS_ADDRESS : Z := 0.
Definition EEPROM_HEADER : Z := 0x4E45.

Definition fnIdle : Z := 0.
Definition fnChannel : Z := 1.
Definition fnStandard : Z := 2.
Definition fnTestPattern : Z := 3.

Definition standards : list Z :=
  [chr "M"; chr "B"; chr "I"; chr "D"].
Definition fnCursorPositions : list Z := [16; 2; 14; 15].

Definition frequencyIncrementH : Z := 900.
Definition frequencyIncrementM : Z := 800.
Definition frequencyIncrementL : Z := 700.

(** ** The settings struct and the globals *)

Record settings_t : Type := mkSettings {
  testPatternEnable : Z;   (* uint8_t *)
  standard : Z;            (* uint8_t *)
  frequencyTimes100 : Z    (* uint32_t *)
}.

(** [sizeof(settings_t)] and [sizeof(EEPROM_HEADER)] on the AVR. *)
Definition sizeof_settings : Z := 6.
Definition sizeof_header : Z := 2.

(** The HD44780 display: the character cells and the cursor column. *)
Record lcd_t : Type := mkLcd {
  cells : list Z;
  cursor : Z
}.

(** One I2C transaction: the 7-bit address and the bytes written. *)
Record transmission : Type := mkTransmission {
  address : Z;
  payload : list Z
}.

(** All the mutable state of the sketch: its global variables, the EEPROM
    (a byte per address), the display and the log of the I2C transactions
    sent so far (oldest first). *)
Record firmware : Type := mkFirmware {
  currentSettings : settings_t;
  frequencyDivisor : Z;     (* uint8_t *)
  function : Z;             (* uint8_t *)
  eeprom : Z -> Z;
  lcd : lcd_t;
  wire : list transmission
}.

Definition set_currentSettings (s : settings_t) (fw : firmware) : firmware :=
  mkFirmware s (frequencyDivisor fw) (function fw) (eeprom fw) (lcd fw) (wire fw).
Definition set_frequencyTimes100 (f : Z) (fw : firmware) : firmware :=
  set_currentSettings
    (mkSettings (testPatternEnable (currentSettings fw))
                (standard (currentSettings fw)) f) fw.
Definition set_standard (v : Z) (fw : firmware) : firmware :=
  set_currentSettings
    (mkSettings (testPatternEnable (currentSettings fw)) v
                (frequencyTimes100 (currentSettings fw))) fw.
Definition set_testPatternEnable (v : Z) (fw : firmware) : firmware :=
  set_currentSettings
    (mkSettings v (standard (currentSettings fw))
                (frequencyTimes100 (currentSettings fw))) fw.
Definition set_frequencyDivisor (d : Z) (fw : firmware) : firmware :=
  mkFirmware (currentSettings fw) d (function fw) (eeprom fw) (lcd fw) (wire fw).
Definition set_function (fn : Z) (fw : firmware) : firmware :=
  mkFirmware (currentSettings fw) (frequencyDivisor fw) fn (eeprom fw) (lcd fw) (wire fw).
Definition set_eeprom (e : Z -> Z) (fw : firmware) : firmware :=
  mkFirmware (currentSettings fw) (frequencyDivisor fw) (function fw) e (lcd fw) (wire fw).
Definition set_lcd (l : lcd_t) (fw : firmware) : firmware :=
  mkFirmware (currentSettings fw) (frequencyDivisor fw) (function fw) (eeprom fw) l (wire fw).
Definition set_wire (w : list transmission) (fw : firmware) : firmware :=
  mkFirmware (currentSettings fw) (frequencyDivisor fw) (function fw) (eeprom fw) (lcd fw) w.

(** The initialiser of [currentSettings]: test pattern on, standard I,
    471.25 MHz. *)
Definition default_settings : settings_t := mkSettings 1 2 47125.

(** The globals as the C runtime initialises them, over an EEPROM [e]. *)
Definition power_on (e : Z -> Z) : firmware :=
  mkFirmware default_settings 0 fnIdle e (mkLcd (repeat (chr " ") 16) 0) [].

(** ** Frequency stepping *)

(** [setFrequencyDivider]: select the PLL divider from the frequency. *)
Definition setFrequencyDivider (fw : firmware) : firmware :=
  let f := frequencyTimes100 (currentSettings fw) in
  if f >? 42325 then set_frequencyDivisor 0 fw
  else if f >? 21025 then set_frequencyDivisor 1 fw
  else if f >? 10525 then set_frequencyDivisor 2 fw
  else if f >=? 4125 then set_frequencyDivisor 3 fw
  else set_frequencyDivisor 4 fw.

(** [incrementFrequency]: one channel up. *)
Definition incrementFrequency (fw : firmware) : firmware :=
  let f := frequencyTimes100 (currentSettings fw) in
  setFrequencyDivider
    (if (f <? 102325) && (f >=? 30325) then
       set_frequencyTimes100 (uint32_t (f + frequencyIncrementM)) fw
     else if (f <? 102325) && (f >=? 29425) then
       set_frequencyTimes100 (uint32_t (f + frequencyIncrementH)) fw
     else if (f <? 102325) && (f >=? 10525) then
       set_frequencyTimes100 (uint32_t (f + frequencyIncrementL)) fw
     else if (f <? 102325) && (f >=? 9725) then
       set_frequencyTimes100 (uint32_t (f + frequencyIncrementM)) fw
     else if f <? 102325 then
       set_frequencyTimes100 (uint32_t (f + frequencyIncrementL)) fw
     else
       set_frequencyTimes100 4125 fw).

(** [decrementFrequency]: one channel down. *)
Definition decrementFrequency (fw : firmware) : firmware :=
  let f := frequencyTimes100 (currentSettings fw) in
  setFrequencyDivider
    (if f >? 30325 then
       set_frequencyTimes100 (uint32_t (f - frequencyIncrementM)) fw
     else if f >? 29425 then
       set_frequencyTimes100 (uint32_t (f - frequencyIncrementH)) fw
     else if f >? 10525 then
       set_frequencyTimes100 (uint32_t (f - frequencyIncrementL)) fw
     else if f >? 9725 then
       set_frequencyTimes100 (uint32_t (f - frequencyIncrementM)) fw
     else if f >? 4125 then
       set_frequencyTimes100 (uint32_t (f - frequencyIncrementL)) fw
     else
       set_frequencyTimes100 102325 fw).

(** ** The display *)

(** Overwrite cell [n] of a line; outside the line nothing is written. *)
Fixpoint put (n : nat) (c : Z) (l : list Z) : list Z :=
  match l, n with
  | [], _ => []
  | _ :: t, O => c :: t
  | h :: t, S n' => h :: put n' c t
  end.

Definition lcd_setCursor (col : Z) (l : lcd_t) : lcd_t := mkLcd (cells l) col.

(** [lcd.write]: store one character at the cursor and advance it. *)
Definition lcd_write (c : Z) (l : lcd_t) : lcd_t :=
  mkLcd (if 0 <=? cursor l then put (Z.to_nat (cursor l)) (uint8_t c) (cells l)
         else cells l)
        (cursor l + 1).

(** [lcd.print] of a string literal. *)
Definition lcd_print (s : list ascii) (l : lcd_t) : lcd_t :=
  fold_left (fun l' c => lcd_write (chr c) l') s l.

(** ** Channel label and register frame *)

(** [1 << frequencyDivisor]; the divisor is only ever 0..4, so the 16-bit
    [int] shift cannot overflow. *)
Definition frequencyDivisorPow (fw : firmware) : Z :=
  Z.shiftl 1 (frequencyDivisor fw).

(** The local [frequencyBits] of [writeConfig]: a 32-bit product and
    quotient, stored in a [uint16_t]. *)
Definition frequencyBits (fw : firmware) (frequencyTimes100 : Z) : Z :=
  uint16_t (uint32_t (uint32_t (frequencyDivisorPow fw) * frequencyTimes100) / 25).

(** The locals [channelDig3] and [channelNumber] of [writeConfig]; both are
    [uint8_t]. *)
Definition channelLabel (frequencyTimes100 : Z) : Z * Z :=
  if frequencyTimes100 >=? 47125 then
    (chr "C", uint8_t (uint32_t (frequencyTimes100 - 47125) / 800 + 21))
  else if (frequencyTimes100 <? 47125) && (frequencyTimes100 >=? 30325) then
    (chr "S", uint8_t (uint32_t (frequencyTimes100 - 30325) / 800 + 21))
  else if (frequencyTimes100 <? 47125) && (frequencyTimes100 >=? 23125) then
    (chr "S", uint8_t (uint32_t (frequencyTimes100 - 23125) / 700 + 11))
  else if (frequencyTimes100 <? 23125) && (frequencyTimes100 >=? 17525) then
    (chr "C", uint8_t (uint32_t (frequencyTimes100 - 17525) / 700 + 5))
  else if (frequencyTimes100 <? 17525) && (frequencyTimes100 >=? 10525) then
    (chr "S", uint8_t (uint32_t (frequencyTimes100 - 10525) / 700 + 1))
  else if (frequencyTimes100 <? 6925) && (frequencyTimes100 >=? 4025) then
    (chr "C", uint8_t (uint32_t (frequencyTimes100 - 4025) / 700 + 1))
  else
    (chr "-", 0).

Definition channelDig3 (frequencyTimes100 : Z) : Z := fst (channelLabel frequencyTimes100).
Definition channelNumber (frequencyTimes100 : Z) : Z := snd (channelLabel frequencyTimes100).
Definition channelDig2 (frequencyTimes100 : Z) : Z :=
  let n := channelNumber frequencyTimes100 in
  if n =? 0 then chr "-" else uint8_t (n / 10 + 48).
Definition channelDig1 (frequencyTimes100 : Z) : Z :=
  let n := channelNumber frequencyTimes100 in
  if n =? 0 then chr "-" else uint8_t (n mod 10 + 48).

(** The four raw configuration bytes computed at the end of [writeConfig];
    each is a [uint8_t]. *)
Definition byteC1 (SO LOP PS X SYSL : Z) : Z :=
  uint8_t
    (Z.lor (Z.lor (Z.lor (Z.lor (Z.lor 128
       (Z.shiftl (Z.land SO 1) 5))
       (Z.shiftl (Z.land LOP 1) 4))
       (Z.shiftl (Z.land PS 1) 3))
       (Z.shiftr (Z.land X 12) 1))
       (Z.land SYSL 1)).

Definition byteC0 (PWC OSC ATT SFD SREF X : Z) : Z :=
  uint8_t
    (Z.lor (Z.lor (Z.lor (Z.lor (Z.lor
       (Z.shiftl (Z.land PWC 1) 7)
       (Z.shiftl (Z.land OSC 1) 6))
       (Z.shiftl (Z.land ATT 1) 5))
       (Z.shiftl (Z.land SFD 3) 3))
       (Z.shiftl (Z.land SREF 1) 2))
       (Z.shiftr (Z.land X 48) 4)).

Definition byteFM (TPEN bits : Z) : Z :=
  uint8_t
    (Z.lor (Z.shiftl (Z.land TPEN 1) 6)
           (uint8_t (Z.land 63 (Z.shiftr (uint16_t bits) 6)))).

Definition byteFL (bits X : Z) : Z :=
  uint8_t (Z.lor (Z.shiftl (Z.land bits 63) 2) (Z.land X 3)).

(** [writeConfigRaw]: one transaction to address [0xCA >> 1]. *)
Definition writeConfigRaw (C1 C0 FM FL : Z) (fw : firmware) : firmware :=
  set_wire (wire fw ++ [mkTransmission (Z.shiftr 0xCA 1) [C1; C0; FM; FL]]) fw.

(** The sixteen characters [writeConfig] writes to the display: channel
    label, frequency in MHz with the leading zeros blanked, divisor,
    standard and test pattern flag.  For [SFD > 3] the source reads
    [standards[SFD]] past the end of the array, and likewise
    [fnCursorPositions[function]] for a function above 3: the byte found
    there is whatever the compiler placed after the array, which the sketch
    does not determine.  The 0 that [nth] gives in that place only keeps the
    functions total; the properties of the display speak of that cell and of
    the cursor only for indices within the arrays. *)
Definition display_text (fw : firmware) (SFD TPEN frequencyTimes100 : Z) : list Z :=
  let dig6 := uint8_t (frequencyTimes100 / 100000) in
  let dig5 := uint8_t (frequencyTimes100 / 10000 mod 10) in
  [ channelDig3 frequencyTimes100;
    channelDig2 frequencyTimes100;
    channelDig1 frequencyTimes100;
    chr " ";
    (if dig6 =? 0 then chr " " else dig6 + 48);
    (if (dig6 =? 0) && (dig5 =? 0) then chr " " else dig5 + 48);
    frequencyTimes100 / 1000 mod 10 + 48;
    frequencyTimes100 / 100 mod 10 + 48;
    chr ".";
    frequencyTimes100 / 10 mod 10 + 48;
    frequencyTimes100 mod 10 + 48;
    chr " ";
    frequencyDivisorPow fw + 48;
    chr " ";
    nth (Z.to_nat SFD) standards 0;
    (if TPEN =? 0 then chr " " else chr "T") ].

(** The twelve-parameter [writeConfig]: fill the display from column 0,
    put the cursor on the field being edited, then send the register
    frame. *)
Definition writeConfig12
    (SO LOP PS X SYSL PWC OSC ATT SFD SREF TPEN frequencyTimes100 : Z)
    (fw : firmware) : firmware :=
  let bits := frequencyBits fw frequencyTimes100 in
  let l := fold_left (fun l' c => lcd_write c l')
             (display_text fw SFD TPEN frequencyTimes100)
             (lcd_setCursor 0 (lcd fw)) in
  let l := lcd_setCursor (nth (Z.to_nat (function fw)) fnCursorPositions 0) l in
  writeConfigRaw
    (byteC1 SO LOP PS X SYSL)
    (byteC0 PWC OSC ATT SFD SREF X)
    (byteFM TPEN bits)
    (byteFL bits X)
    (set_lcd l fw).

(** The parameterless [writeConfig]: the globals, every other control bit 0. *)
Definition writeConfig (fw : firmware) : firmware :=
  writeConfig12 0 0 0 (frequencyDivisor fw) 0 0 0 0
    (standard (currentSettings fw)) 0
    (testPatternEnable (currentSettings fw))
    (frequencyTimes100 (currentSettings fw)) fw.

(** ** The EEPROM *)

(** The avr-libc accessors: words are little-endian, a block is a run of
    bytes. *)
Definition eeprom_write_byte (a v : Z) (e : Z -> Z) : Z -> Z :=
  fun x => if x =? a then uint8_t v else e x.

Definition eeprom_write_word (a w : Z) (e : Z -> Z) : Z -> Z :=
  eeprom_write_byte (a + 1) (Z.shiftr (uint16_t w) 8)
    (eeprom_write_byte a w e).

Definition eeprom_read_word (a : Z) (e : Z -> Z) : Z :=
  Z.lor (e a) (Z.shiftl (e (a + 1)) 8).

Fixpoint eeprom_write_block (src : list Z) (a : Z) (e : Z -> Z) : Z -> Z :=
  match src with
  | [] => e
  | b :: src' => eeprom_write_block src' (a + 1) (eeprom_write_byte a b e)
  end.

Fixpoint eeprom_read_block (a : Z) (n : nat) (e : Z -> Z) : list Z :=
  match n with
  | O => []
  | S n' => e a :: eeprom_read_block (a + 1) n' e
  end.

(** The byte image of a [settings_t] in memory, and the struct a byte image
    denotes. *)
Definition settings_bytes (s : settings_t) : list Z :=
  [ uint8_t (testPatternEnable s);
    uint8_t (standard s);
    uint8_t (frequencyTimes100 s);
    uint8_t (Z.shiftr (frequencyTimes100 s) 8);
    uint8_t (Z.shiftr (frequencyTimes100 s) 16);
    uint8_t (Z.shiftr (frequencyTimes100 s) 24) ].

Definition settings_of_bytes (p : list Z) : settings_t :=
  mkSettings (nth 0 p 0) (nth 1 p 0)
    (Z.lor (Z.lor (Z.lor (nth 2 p 0)
       (Z.shiftl (nth 3 p 0) 8))
       (Z.shiftl (nth 4 p 0) 16))
       (Z.shiftl (nth 5 p 0) 24)).

(** The checksum loop shared by save and load: a [uint16_t] accumulator
    over the bytes [p[0..sizeof-1]]. *)
Definition checksum_of (p : list Z) : Z :=
  fold_left (fun checksum b => uint16_t (checksum + b)) p 0.

(** [currentSettings_save]: header, struct, checksum; returns the size of
    the struct. *)
Definition currentSettings_save (fw : firmware) : Z * firmware :=
  let p := settings_bytes (currentSettings fw) in
  let checksum := checksum_of p in
  let e := eeprom_write_word CURRENTSETTINGS_ADDRESS EEPROM_HEADER (eeprom fw) in
  let e := eeprom_write_block p (CURRENTSETTINGS_ADDRESS + sizeof_header) e in
  let e := eeprom_write_word
             (CURRENTSETTINGS_ADDRESS + sizeof_header + sizeof_settings) checksum e in
  (sizeof_settings, set_eeprom e fw).

(** [currentSettings_load]: the pair is the local [retval] (0 when the block
    was accepted, 1 when it was rejected) and the state afterwards.  The C
    function computes [retval] but has no return statement; its only
    caller ignores the result. *)
Definition currentSettings_load (fw : firmware) : Z * firmware :=
  let eepromHeaderTemp := eeprom_read_word CURRENTSETTINGS_ADDRESS (eeprom fw) in
  let p := eeprom_read_block (CURRENTSETTINGS_ADDRESS + sizeof_header)
             (Z.to_nat sizeof_settings) (eeprom fw) in
  let checksum := eeprom_read_word
             (CURRENTSETTINGS_ADDRESS + sizeof_header + sizeof_settings) (eeprom fw) in
  let checksumCalc := checksum_of p in
  if (checksum =? checksumCalc) && (eepromHeaderTemp =? EEPROM_HEADER) then
    (0, set_currentSettings (settings_of_bytes p) fw)
  else
    (1, fw).

(** ** Event handlers *)

(** The AceButton event types and the three button pins. *)
Inductive eventType : Type :=
| kEventPressed | kEventReleased | kEventClicked | kEventDoubleClicked
| kEventLongPressed | kEventRepeatPressed | kEventLongReleased.

Inductive pin : Type := buttonFPin | buttonUPin | buttonDPin.

Definition show_cursor (fw : firmware) : firmware :=
  set_lcd (lcd_setCursor (nth (Z.to_nat (function fw)) fnCursorPositions 0) (lcd fw)) fw.

(** [handleFEvent]: the function (mode) button. *)
Definition handleFEvent (ev : eventType) (fw : firmware) : firmware :=
  match ev with
  | kEventReleased =>
      show_cursor
        (if function fw =? fnChannel then set_function fnStandard fw
         else if function fw =? fnStandard then set_function fnTestPattern fw
         else set_function fnChannel fw)
  | kEventLongPressed =>
      show_cursor
        (if function fw =? fnIdle then set_function fnChannel fw
         else
           let fw := set_function fnIdle fw in
           let fw := snd (currentSettings_save fw) in
           let fw := set_lcd (lcd_print (list_ascii_of_string "Config saved.   ")
                                (lcd_setCursor 0 (lcd fw))) fw in
           writeConfig fw)
  | _ => fw
  end.

(** [handleUDEvent]: the up and down buttons; [button] is the pin of the
    button the event comes from. *)
Definition handleUDEvent (button : pin) (ev : eventType) (fw : firmware) : firmware :=
  match ev with
  | kEventPressed | kEventRepeatPressed =>
      match button with
      | buttonUPin =>
          if function fw =? fnChannel then
            writeConfig (incrementFrequency fw)
          else if function fw =? fnStandard then
            writeConfig
              (set_standard
                 (uint8_t (Z.land (standard (currentSettings fw) + 1) 3)) fw)
          else if function fw =? fnTestPattern then
            writeConfig
              (set_testPatternEnable
                 (uint8_t (Z.lxor (testPatternEnable (currentSettings fw)) 1)) fw)
          else fw
      | buttonDPin =>
          if function fw =? fnChannel then
            writeConfig (decrementFrequency fw)
          else if function fw =? fnStandard then
            writeConfig
              (set_standard
                 (uint8_t (Z.land (standard (currentSettings fw) - 1) 3)) fw)
          else if function fw =? fnTestPattern then
            writeConfig
              (set_testPatternEnable
                 (uint8_t (Z.lxor (testPatternEnable (currentSettings fw)) 1)) fw)
          else fw
      | buttonFPin => fw
      end
  | _ => fw
  end.

(** [setup], from the state at power-on; [held] tells whether the function
    button reads low (pressed) at that moment. *)
Definition setup (held : bool) (fw : firmware) : firmware :=
  let fw := set_lcd (mkLcd (repeat (chr " ") 16) 0) fw in
  let fw :=
    if held then
      set_lcd (lcd_print (list_ascii_of_string "Config not read.")
                 (lcd_setCursor 0 (lcd fw))) fw
    else snd (currentSettings_load fw) in
  writeConfig fw.

(** ** Reachable states *)

Definition frequency_of (fw : firmware) : Z := frequencyTimes100 (currentSettings fw).

(** The states reached from power-on by channel-up and channel-down steps
    alone. *)
Inductive stepped : firmware -> Prop :=
| stepped_power_on (e : Z -> Z) : stepped (power_on e)
| stepped_up (fw : firmware) : stepped fw -> stepped (incrementFrequency fw)
| stepped_down (fw : firmware) : stepped fw -> stepped (decrementFrequency fw).

(** The three arithmetic progressions the stepping rule moves on. *)
Definition on_grid (f : Z) : Prop :=
  (4125 <= f <= 9725 /\ (f - 4125) mod 700 = 0) \/
  (10525 <= f <= 29425 /\ (f - 10525) mod 700 = 0) \/
  (30325 <= f <= 102325 /\ (f - 30325) mod 800 = 0).

(** The divider held in [frequencyDivisor] is the one [setFrequencyDivider]
    would choose for the current frequency. *)
Definition in_sync (fw : firmware) : Prop :=
  frequencyDivisor (setFrequencyDivider fw) = frequencyDivisor fw.

(** The states the firmware goes through in operation when it starts on
    its defaults (function button held at power-on, or no acceptable block
    in the EEPROM): any sequence of button events after [setup]. *)
Inductive operated : firmware -> Prop :=
| operated_setup (e : Z -> Z) (held : bool) :
    held = true \/ fst (currentSettings_load (power_on e)) = 1 ->
    operated (setup held (power_on e))
| operated_F (ev : eventType) (fw : firmware) :
    operated fw -> operated (handleFEvent ev fw)
| operated_UD (button : pin) (ev : eventType) (fw : firmware) :
    operated fw -> operated (handleUDEvent button ev fw).

(** What operation preserves. *)
Definition sound (fw : firmware) : Prop :=
  on_grid (frequency_of fw) /\
  in_sync fw /\
  (testPatternEnable (currentSettings fw) = 0 \/
   testPatternEnable (currentSettings fw) = 1) /\
  0 <= standard (currentSettings fw) <= 3.

(** A channel with a label on the display: tag C or S and a number. *)
Definition labelled (f : Z) : Prop :=
  (channelDig3 f = chr "C" \/ channelDig3 f = chr "S") /\ channelNumber f <> 0.

(** The register frame as the interface description words it, for
    comparison with the bytes the code computes: bit 7 of [C1] is a fixed
    marker, [X] is the divisor exponent, [bits] the frequency word and the
    remaining parameters are the reserved control bits. *)
Definition frame_C1 (LOP PS X SYSL : Z) : Z :=
  Z.lor (Z.lor (Z.lor (Z.lor 128 (Z.shiftl LOP 4)) (Z.shiftl PS 3))
     (Z.shiftr (Z.land X 12) 1)) SYSL.

Definition frame_C0 (PWC OSC ATT SFD SREF X : Z) : Z :=
  Z.lor (Z.lor (Z.lor (Z.lor (Z.lor (Z.shiftl PWC 7) (Z.shiftl OSC 6)) (Z.shiftl ATT 5))
     (Z.shiftl (Z.land SFD 3) 3)) (Z.shiftl SREF 2))
     (Z.shiftr (Z.land X 48) 4).

Definition frame_FM (TPEN bits : Z) : Z :=
  Z.lor (Z.shiftl TPEN 6) (Z.land (Z.shiftr bits 6) 63).

Definition frame_FL (bits X : Z) : Z :=
  Z.lor (Z.shiftl (Z.land bits 63) 2) (Z.land X 3).


(** The ten cells of the persisted block. *)
Definition block_cells (e : Z -> Z) : list Z :=
  eeprom_read_block CURRENTSETTINGS_ADDRESS 10 e.

Definition is_byte (v : Z) : Prop := 0 <= v < 256.

(** An EEPROM fresh from the factory: every cell reads 0xFF. *)
Definition erased : Z -> Z := fun _ => 255.

(** ** Further notions used by the properties of the handlers *)

(** The frame [writeConfig] would send for the state as it stands. *)
Definition frame_of (fw : firmware) : transmission :=
  mkTransmission 0x65
    [ byteC1 0 0 0 (frequencyDivisor fw) 0;
      byteC0 0 0 0 (standard (currentSettings fw)) 0 (frequencyDivisor fw);
      byteFM (testPatternEnable (currentSettings fw))
             (frequencyBits fw (frequencyTimes100 (currentSettings fw)));
      byteFL (frequencyBits fw (frequencyTimes100 (currentSettings fw)))
             (frequencyDivisor fw) ].

(** A frame as the chip expects it: address 0x65 and four bytes. *)
Definition well_formed (t : transmission) : Prop :=
  address t = 0x65 /\ List.length (payload t) = 4%nat /\ Forall is_byte (payload t).

(** The states the firmware goes through after [setup], whatever the EEPROM
    held at power-on. *)
Inductive running : firmware -> Prop :=
| running_setup (e : Z -> Z) (held : bool) : running (setup held (power_on e))
| running_F (ev : eventType) (fw : firmware) :
    running fw -> running (handleFEvent ev fw)
| running_UD (button : pin) (ev : eventType) (fw : firmware) :
    running fw -> running (handleUDEvent button ev fw).

(** The channel frequencies in ascending order: 41.25 to 97.25 MHz and
    105.25 to 294.25 MHz in steps of 7 MHz, 303.25 to 1023.25 MHz in steps
    of 8 MHz. *)
Definition channels : list Z :=
  map (fun k => 4125 + 700 * Z.of_nat k) (seq 0 9) ++
  map (fun k => 10525 + 700 * Z.of_nat k) (seq 0 28) ++
  map (fun k => 30325 + 800 * Z.of_nat k) (seq 0 91).

(** The number a character of the frequency field stands for: a blank is a
    suppressed leading zero. *)
Definition digit_value (c : Z) : Z := if c =? chr " " then 0 else c - 48.

Definition is_digit (c : Z) : Prop := 48 <= c <= 57.

(** One channel step on a frequency alone: the frequency
    [incrementFrequency] and [decrementFrequency] leave behind. *)
Definition channel_up (f : Z) : Z :=
  frequency_of (incrementFrequency (set_frequencyTimes100 f (power_on erased))).

Definition channel_down (f : Z) : Z :=
  frequency_of (decrementFrequency (set_frequencyTimes100 f (power_on erased))).

(** Two frequencies shown with the same tag and channel number. *)
Definition same_label (f g : Z) : bool :=
  (channelDig3 f =? channelDig3 g) && (channelNumber f =? channelNumber g).

(** Whether repeating [step] from [x] hits [g] within [n] steps. *)
Fixpoint comes_back (step : Z -> Z) (n : nat) (x g : Z) : bool :=
  match n with
  | O => false
  | S n' => (step x =? g) || comes_back step n' (step x) g
  end.

(** Every global within the range of its C type, and the divider among
    the values [setFrequencyDivider] assigns. *)
Definition typed (fw : firmware) : Prop :=
  0 <= testPatternEnable (currentSettings fw) < 2 ^ 8 /\
  0 <= standard (currentSettings fw) < 2 ^ 8 /\
  0 <= frequencyTimes100 (currentSettings fw) < 2 ^ 32 /\
  0 <= frequencyDivisor fw <= 4 /\
  0 <= function fw < 2 ^ 8.

(** * Properties *)

Ltac Zify.zify_post_hook ::= Z.to_euclidean_division_equations.

(** Decide every comparison of the goal. *)
Ltac split_tests :=
  repeat rewrite Z.gtb_ltb in *; repeat rewrite Z.geb_leb in *;
  repeat match goal with
  | |- context [Z.ltb ?a ?b] => destruct (Z.ltb_spec a b)
  | |- context [Z.leb ?a ?b] => destruct (Z.leb_spec a b)
  | |- context [Z.eqb ?a ?b] => destruct (Z.eqb_spec a b)
  end.

(** Settle every comparison of the goal that the hypotheses decide. *)
Ltac settle_tests :=
  repeat rewrite Z.gtb_ltb; repeat rewrite Z.geb_leb;
  repeat match goal with
  | |- context [Z.ltb ?a ?b] =>
      first [ rewrite (proj2 (Z.ltb_lt a b)) by lia
            | rewrite (proj2 (Z.ltb_ge a b)) by lia ]
  | |- context [Z.leb ?a ?b] =>
      first [ rewrite (proj2 (Z.leb_le a b)) by lia
            | rewrite (proj2 (Z.leb_gt a b)) by lia ]
  end;
  cbn [andb orb negb].

Ltac unfold_ints :=
  unfold uint8_t, uint16_t, uint32_t,
    frequencyIncrementH, frequencyIncrementM, frequencyIncrementL in *.

Lemma setFrequencyDivider_settings (fw : firmware) :
  currentSettings (setFrequencyDivider fw) = currentSettings fw.
Proof. unfold setFrequencyDivider. split_tests; reflexivity. Qed.

Section Stepping.

Variable fw : firmware.
Local Abbreviation f := (frequency_of fw).

Lemma setFrequencyDivider_divisor :
  (42325 < f -> frequencyDivisor (setFrequencyDivider fw) = 0) /\
  (21025 < f <= 42325 -> frequencyDivisor (setFrequencyDivider fw) = 1) /\
  (10525 < f <= 21025 -> frequencyDivisor (setFrequencyDivider fw) = 2) /\
  (4125 <= f <= 10525 -> frequencyDivisor (setFrequencyDivider fw) = 3) /\
  (f < 4125 -> frequencyDivisor (setFrequencyDivider fw) = 4).
Proof.
  unfold frequency_of, setFrequencyDivider.
  split_tests; simpl; repeat split; intros; solve [reflexivity | lia].
Qed.

Lemma incrementFrequency_frequency :
  ((4125 <= f < 9725 \/ 10525 <= f < 29425) ->
     frequency_of (incrementFrequency fw) = f + 700) /\
  ((9725 <= f < 10525 \/ 30325 <= f < 102325) ->
     frequency_of (incrementFrequency fw) = f + 800) /\
  (29425 <= f < 30325 -> frequency_of (incrementFrequency fw) = f + 900) /\
  (102325 <= f -> frequency_of (incrementFrequency fw) = 4125).
Proof.
  unfold frequency_of, incrementFrequency.
  rewrite setFrequencyDivider_settings. unfold_ints.
  split_tests; simpl; repeat split; intros; solve [reflexivity | lia].
Qed.

Lemma decrementFrequency_frequency :
  ((4125 < f <= 9725 \/ 10525 < f <= 29425) ->
     frequency_of (decrementFrequency fw) = f - 700) /\
  ((9725 < f <= 10525 \/ 30325 < f <= 102325) ->
     frequency_of (decrementFrequency fw) = f - 800) /\
  (29425 < f <= 30325 -> frequency_of (decrementFrequency fw) = f - 900) /\
  (f <= 4125 -> frequency_of (decrementFrequency fw) = 102325).
Proof.
  unfold frequency_of, decrementFrequency.
  rewrite setFrequencyDivider_settings. unfold_ints.
  split_tests; simpl; repeat split; intros; solve [reflexivity | lia].
Qed.

End Stepping.

(** *** The divider follows the frequency *)

Lemma in_sync_setFrequencyDivider (fw : firmware) : in_sync (setFrequencyDivider fw).
Proof.
  unfold in_sync.
  destruct (setFrequencyDivider_divisor (setFrequencyDivider fw)) as (A0 & A1 & A2 & A3 & A4).
  destruct (setFrequencyDivider_divisor fw) as (B0 & B1 & B2 & B3 & B4).
  unfold frequency_of in *. rewrite setFrequencyDivider_settings in *.
  set (f := frequencyTimes100 (currentSettings fw)) in *.
  assert (C : 42325 < f \/ 21025 < f <= 42325 \/ 10525 < f <= 21025 \/
              4125 <= f <= 10525 \/ f < 4125) by lia.
  destruct C as [C | [C | [C | [C | C]]]];
    [ rewrite A0, B0 | rewrite A1, B1 | rewrite A2, B2
    | rewrite A3, B3 | rewrite A4, B4 ]; auto.
Qed.

Lemma in_sync_incrementFrequency (fw : firmware) : in_sync (incrementFrequency fw).
Proof. apply in_sync_setFrequencyDivider. Qed.

Lemma in_sync_decrementFrequency (fw : firmware) : in_sync (decrementFrequency fw).
Proof. apply in_sync_setFrequencyDivider. Qed.

Lemma in_sync_power_on (e : Z -> Z) : in_sync (power_on e).
Proof. reflexivity. Qed.

(** *** The stepping rule stays on the grid *)

Lemma on_grid_power_on (e : Z -> Z) : on_grid (frequency_of (power_on e)).
Proof. right; right. unfold frequency_of, power_on; simpl. split; [lia | reflexivity]. Qed.

Lemma on_grid_incrementFrequency (fw : firmware) :
  on_grid (frequency_of fw) -> on_grid (frequency_of (incrementFrequency fw)).
Proof.
  destruct (incrementFrequency_frequency fw) as (U7 & U8 & U9 & Uw).
  unfold on_grid. lia.
Qed.

Lemma on_grid_decrementFrequency (fw : firmware) :
  on_grid (frequency_of fw) -> on_grid (frequency_of (decrementFrequency fw)).
Proof.
  destruct (decrementFrequency_frequency fw) as (D7 & D8 & D9 & Dw).
  unfold on_grid. lia.
Qed.

Lemma stepped_invariant (fw : firmware) :
  stepped fw -> on_grid (frequency_of fw) /\ in_sync fw.
Proof.
  induction 1 as [e | fw H [IHg IHs] | fw H [IHg IHs]].
  - split; [apply on_grid_power_on | apply in_sync_power_on].
  - split; [now apply on_grid_incrementFrequency | apply in_sync_incrementFrequency].
  - split; [now apply on_grid_decrementFrequency | apply in_sync_decrementFrequency].
Qed.

Lemma stepped_iter_up (n : nat) (e : Z -> Z) :
  stepped (Nat.iter n incrementFrequency (power_on e)).
Proof.
  induction n as [| n IH]; simpl; [apply stepped_power_on | now apply stepped_up].
Qed.

Lemma stepped_iter_down (n : nat) (e : Z -> Z) :
  stepped (Nat.iter n decrementFrequency (power_on e)).
Proof.
  induction n as [| n IH]; simpl; [apply stepped_power_on | now apply stepped_down].
Qed.

(** The grid is exactly what stepping reaches: every grid point is the
    frequency of some stepped state. *)
Lemma on_grid_reached (e : Z -> Z) (f : Z) :
  on_grid f -> exists fw, stepped fw /\ frequency_of fw = f.
Proof.
  intros G.
  (* walk up from the bottom of the range: 4125 is reached by wrapping *)
  assert (B : exists fw, stepped fw /\ frequency_of fw = 4125).
  { exists (Nat.iter 70 incrementFrequency (power_on e)).
    split; [apply stepped_iter_up | vm_compute; reflexivity]. }
  assert (W : forall k : nat, forall g, on_grid g ->
            (g <= 9725 -> g = 4125 + 700 * Z.of_nat k ->
               exists fw, stepped fw /\ frequency_of fw = g) /\
            (10525 <= g <= 29425 -> g = 10525 + 700 * Z.of_nat k ->
               exists fw, stepped fw /\ frequency_of fw = g) /\
            (30325 <= g -> g = 30325 + 800 * Z.of_nat k ->
               exists fw, stepped fw /\ frequency_of fw = g)).
  { induction k as [| k IH]; intros g Gg.
    - repeat split; intros.
      + replace g with 4125 by lia. exact B.
      + exists (Nat.iter 79 incrementFrequency (power_on e)).
        split; [apply stepped_iter_up | replace g with 10525 by lia; vm_compute; reflexivity].
      + exists (Nat.iter 21 decrementFrequency (power_on e)).
        split; [apply stepped_iter_down | replace g with 30325 by lia; vm_compute; reflexivity].
    - repeat split; intros R E.
      + destruct (IH (g - 700)) as (I1 & I2 & I3); [unfold on_grid in *; lia |].
        destruct I1 as (fw & S & F); [lia | lia |].
        exists (incrementFrequency fw). split; [now apply stepped_up |].
        destruct (incrementFrequency_frequency fw) as (U7 & _). rewrite U7; lia.
      + destruct (IH (g - 700)) as (I1 & I2 & I3); [unfold on_grid in *; lia |].
        destruct I2 as (fw & S & F); [lia | lia |].
        exists (incrementFrequency fw). split; [now apply stepped_up |].
        destruct (incrementFrequency_frequency fw) as (U7 & _). rewrite U7; lia.
      + destruct (IH (g - 800)) as (I1 & I2 & I3); [unfold on_grid in *; lia |].
        destruct I3 as (fw & S & F); [lia | lia |].
        exists (incrementFrequency fw). split; [now apply stepped_up |].
        destruct (incrementFrequency_frequency fw) as (_ & U8 & _).
        unfold on_grid in Gg. rewrite U8; lia. }
  destruct G as [[R M] | [[R M] | [R M]]].
  - destruct (W (Z.to_nat ((f - 4125) / 700)) f) as (H & _); [unfold on_grid; lia |].
    apply H; lia.
  - destruct (W (Z.to_nat ((f - 10525) / 700)) f) as (_ & H & _); [unfold on_grid; lia |].
    apply H; lia.
  - destruct (W (Z.to_nat ((f - 30325) / 800)) f) as (_ & _ & H); [unfold on_grid; lia |].
    apply H; lia.
Qed.

Lemma settings_ext (s t : settings_t) :
  testPatternEnable s = testPatternEnable t ->
  standard s = standard t ->
  frequencyTimes100 s = frequencyTimes100 t ->
  s = t.
Proof. destruct s, t; simpl; intros; subst; reflexivity. Qed.

Lemma incrementFrequency_keeps (fw : firmware) :
  testPatternEnable (currentSettings (incrementFrequency fw)) =
    testPatternEnable (currentSettings fw) /\
  standard (currentSettings (incrementFrequency fw)) = standard (currentSettings fw) /\
  eeprom (incrementFrequency fw) = eeprom fw /\
  function (incrementFrequency fw) = function fw /\
  wire (incrementFrequency fw) = wire fw.
Proof.
  unfold incrementFrequency, setFrequencyDivider.
  split_tests; simpl; repeat split; reflexivity.
Qed.

Lemma decrementFrequency_keeps (fw : firmware) :
  testPatternEnable (currentSettings (decrementFrequency fw)) =
    testPatternEnable (currentSettings fw) /\
  standard (currentSettings (decrementFrequency fw)) = standard (currentSettings fw) /\
  eeprom (decrementFrequency fw) = eeprom fw /\
  function (decrementFrequency fw) = function fw /\
  wire (decrementFrequency fw) = wire fw.
Proof.
  unfold decrementFrequency, setFrequencyDivider.
  split_tests; simpl; repeat split; reflexivity.
Qed.

(** ** The divisor band *)

(** C2, as the code has it: [setFrequencyDivider] picks the first matching
    row of the table (exponent 0 above 423.25 MHz, 1 above 210.25, 2 above
    105.25, 3 from 41.25 up, 4 below) and touches nothing else; 41.25 MHz
    itself lies in the fourth row and gets exponent 3. *)
Theorem divisor_band_table (fw : firmware) :
  let f := frequency_of fw in
  let d := frequencyDivisor (setFrequencyDivider fw) in
  (42325 < f -> d = 0) /\
  (21025 < f <= 42325 -> d = 1) /\
  (10525 < f <= 21025 -> d = 2) /\
  (4125 <= f <= 10525 -> d = 3) /\
  (f < 4125 -> d = 4) /\
  (f = 4125 -> d = 3) /\
  currentSettings (setFrequencyDivider fw) = currentSettings fw.
Proof.
  intros f d.
  destruct (setFrequencyDivider_divisor fw) as (B0 & B1 & B2 & B3 & B4).
  repeat split; try assumption.
  - intros E. apply B3. fold f. lia.
  - apply setFrequencyDivider_settings.
Qed.

Lemma divisor_band_table_witness :
  frequencyDivisor (setFrequencyDivider (power_on erased)) = 0 /\
  frequencyDivisor (setFrequencyDivider (set_frequencyTimes100 4125 (power_on erased))) = 3 /\
  frequencyDivisor (setFrequencyDivider (set_frequencyTimes100 4025 (power_on erased))) = 4.
Proof.
  split; [| split].
  - apply (divisor_band_table (power_on erased)). unfold frequency_of; simpl; lia.
  - apply (divisor_band_table (set_frequencyTimes100 4125 (power_on erased))). reflexivity.
  - apply (divisor_band_table (set_frequencyTimes100 4025 (power_on erased))). unfold frequency_of; simpl; lia.
Defined.

(** C2 as stated fails at its own example: at 41.25 MHz the code selects
    exponent 3, not 4. *)
Lemma divisor_band_4125_counterexample :
  frequencyDivisor (setFrequencyDivider (set_frequencyTimes100 4125 (power_on erased))) = 3 /\
  frequencyDivisor (setFrequencyDivider (set_frequencyTimes100 4125 (power_on erased))) <> 4.
Proof. split; [reflexivity | discriminate]. Qed.

(** ** The stepping rule *)

(** C4: one step up adds 7.00, 8.00 or 9.00 MHz according to the sub-range
    of the current frequency and wraps from 1023.25 MHz and above to 41.25;
    one step down mirrors it and wraps from 41.25 MHz and below to
    1023.25. *)
Theorem stepping_rule (fw : firmware) :
  let f := frequency_of fw in
  let up := frequency_of (incrementFrequency fw) in
  let down := frequency_of (decrementFrequency fw) in
  ((4125 <= f < 9725 \/ 10525 <= f < 29425) -> up = f + 700) /\
  ((9725 <= f < 10525 \/ 30325 <= f < 102325) -> up = f + 800) /\
  (29425 <= f < 30325 -> up = f + 900) /\
  (102325 <= f -> up = 4125) /\
  ((4125 < f <= 9725 \/ 10525 < f <= 29425) -> down = f - 700) /\
  ((9725 < f <= 10525 \/ 30325 < f <= 102325) -> down = f - 800) /\
  (29425 < f <= 30325 -> down = f - 900) /\
  (f <= 4125 -> down = 102325).
Proof.
  intros f up down.
  destruct (incrementFrequency_frequency fw) as (U7 & U8 & U9 & Uw).
  destruct (decrementFrequency_frequency fw) as (D7 & D8 & D9 & Dw).
  repeat split; assumption.
Qed.

Lemma stepping_rule_witness :
  frequency_of (incrementFrequency (power_on erased)) = 47125 + 800 /\
  frequency_of (decrementFrequency (power_on erased)) = 47125 - 800 /\
  frequency_of (incrementFrequency (set_frequencyTimes100 102325 (power_on erased))) = 4125 /\
  frequency_of (decrementFrequency (set_frequencyTimes100 4125 (power_on erased))) = 102325 /\
  frequency_of (incrementFrequency (set_frequencyTimes100 29425 (power_on erased))) = 29425 + 900 /\
  frequency_of (decrementFrequency (set_frequencyTimes100 30325 (power_on erased))) = 30325 - 900 /\
  frequency_of (incrementFrequency (set_frequencyTimes100 4125 (power_on erased))) = 4125 + 700 /\
  frequency_of (decrementFrequency (set_frequencyTimes100 29425 (power_on erased))) = 29425 - 700.
Proof.
  split. { apply (stepping_rule (power_on erased)). right. unfold frequency_of; simpl; lia. }
  split. { apply (stepping_rule (power_on erased)). right. unfold frequency_of; simpl; lia. }
  split. { apply (stepping_rule (set_frequencyTimes100 102325 (power_on erased))).
           unfold frequency_of; simpl; lia. }
  split. { apply (stepping_rule (set_frequencyTimes100 4125 (power_on erased))).
           unfold frequency_of; simpl; lia. }
  split. { apply (stepping_rule (set_frequencyTimes100 29425 (power_on erased))).
           unfold frequency_of; simpl; lia. }
  split. { apply (stepping_rule (set_frequencyTimes100 30325 (power_on erased))).
           unfold frequency_of; simpl; lia. }
  split. { apply (stepping_rule (set_frequencyTimes100 4125 (power_on erased))).
           left. unfold frequency_of; simpl; lia. }
  apply (stepping_rule (set_frequencyTimes100 29425 (power_on erased))).
  right. unfold frequency_of; simpl; lia.
Defined.

(** ** The channel label table *)

Lemma channelLabel_rows (f : Z) :
  0 <= f < 2 ^ 32 ->
  (47125 <= f -> channelLabel f = (chr "C", ((f - 47125) / 800 + 21) mod 256)) /\
  (30325 <= f < 47125 -> channelLabel f = (chr "S", (f - 30325) / 800 + 21)) /\
  (23125 <= f < 30325 -> channelLabel f = (chr "S", (f - 23125) / 700 + 11)) /\
  (17525 <= f < 23125 -> channelLabel f = (chr "C", (f - 17525) / 700 + 5)) /\
  (10525 <= f < 17525 -> channelLabel f = (chr "S", (f - 10525) / 700 + 1)) /\
  (4025 <= f < 6925 -> channelLabel f = (chr "C", (f - 4025) / 700 + 1)) /\
  (f < 4025 \/ 6925 <= f < 10525 -> channelLabel f = (chr "-", 0)).
Proof.
  intros T. unfold channelLabel. unfold_ints.
  repeat split; intros R; try destruct R as [R | R]; settle_tests; try reflexivity;
    rewrite (Z.mod_small (f - _)) by lia; try reflexivity;
    f_equal; apply Z.mod_small; lia.
Qed.

(** C3, as the code has it: the label is the first matching row of the
    table, with the channel number held in eight bits.  Below 2351.25 MHz,
    which covers the whole range the stepping rule moves in, the number is
    the one the table gives; from there on it is that number modulo 256.
    Outside the rows the tag is the dash and the number is 0, which the
    display shows as two dashes. *)
Theorem channel_label_table (f : Z) :
  0 <= f < 2 ^ 32 ->
  (47125 <= f -> channelLabel f = (chr "C", ((f - 47125) / 800 + 21) mod 256)) /\
  (47125 <= f < 235125 -> channelLabel f = (chr "C", (f - 47125) / 800 + 21)) /\
  (30325 <= f < 47125 -> channelLabel f = (chr "S", (f - 30325) / 800 + 21)) /\
  (23125 <= f < 30325 -> channelLabel f = (chr "S", (f - 23125) / 700 + 11)) /\
  (17525 <= f < 23125 -> channelLabel f = (chr "C", (f - 17525) / 700 + 5)) /\
  (10525 <= f < 17525 -> channelLabel f = (chr "S", (f - 10525) / 700 + 1)) /\
  (4025 <= f < 6925 -> channelLabel f = (chr "C", (f - 4025) / 700 + 1)) /\
  (f < 4025 \/ 6925 <= f < 10525 -> channelLabel f = (chr "-", 0)) /\
  (channelNumber f = 0 -> channelDig2 f = chr "-" /\ channelDig1 f = chr "-") /\
  channelLabel 47125 = (chr "C", 21).
Proof.
  intros T. destruct (channelLabel_rows f T) as (R1 & R2 & R3 & R4 & R5 & R6 & R7).
  split; [exact R1 |].
  split; [intros R; rewrite R1 by lia; f_equal; lia |].
  do 6 (split; [assumption |]).
  split; [| reflexivity].
  intros N. unfold channelDig2, channelDig1. rewrite N. split; reflexivity.
Qed.

Lemma channel_label_table_witness :
  channelLabel 47925 = (chr "C", (47925 - 47125) / 800 + 21) /\
  channelLabel 30325 = (chr "S", (30325 - 30325) / 800 + 21) /\
  channelLabel 4125 = (chr "C", (4125 - 4025) / 700 + 1) /\
  channelLabel 9725 = (chr "-", 0).
Proof.
  destruct (channel_label_table 47925) as (_ & H1 & _); [lia |].
  destruct (channel_label_table 30325) as (_ & _ & H2 & _); [lia |].
  destruct (channel_label_table 4125) as (_ & _ & _ & _ & _ & _ & H3 & _); [lia |].
  destruct (channel_label_table 9725) as (_ & _ & _ & _ & _ & _ & _ & H4 & _); [lia |].
  split; [apply H1; lia |].
  split; [apply H2; lia |].
  split; [apply H3; lia |].
  apply H4; lia.
Defined.

(** C3 as stated fails far above the modulator's range: at 2351.25 MHz the
    first row's formula gives 256, the eight-bit channel number is 0 and
    the display shows the tag C with two dashes. *)
Lemma channel_number_wraps_counterexample :
  (235125 - 47125) / 800 + 21 = 256 /\
  channelLabel 235125 = (chr "C", 0) /\
  channelLabel 235125 <> (chr "C", (235125 - 47125) / 800 + 21) /\
  channelDig2 235125 = chr "-" /\ channelDig1 235125 = chr "-".
Proof.
  split; [reflexivity |]. split; [reflexivity |].
  split; [vm_compute; discriminate |]. split; reflexivity.
Qed.

(** ** Channel labels of the reachable frequencies *)

Lemma labelled_on_grid (f : Z) :
  on_grid f -> f < 6925 \/ 9725 < f -> labelled f.
Proof.
  unfold on_grid, labelled, channelDig3, channelNumber. intros G R.
  assert (T : 0 <= f < 2 ^ 32) by lia.
  destruct (channelLabel_rows f T) as (R1 & R2 & R3 & R4 & R5 & R6 & _).
  assert (C : 47125 <= f \/ 30325 <= f < 47125 \/ 23125 <= f < 30325 \/
              17525 <= f < 23125 \/ 10525 <= f < 17525 \/ 4025 <= f < 6925) by lia.
  destruct C as [C | [C | [C | [C | [C | C]]]]];
    [ rewrite (R1 C) | rewrite (R2 C) | rewrite (R3 C)
    | rewrite (R4 C) | rewrite (R5 C) | rewrite (R6 C) ];
    clear R1 R2 R3 R4 R5 R6; simpl; (split; [auto | lia]).
Qed.

Lemma unlabelled_on_grid (f : Z) :
  on_grid f -> 6925 <= f <= 9725 ->
  In f [6925; 7625; 8325; 9025; 9725] /\ channelLabel f = (chr "-", 0).
Proof.
  unfold on_grid. intros G R. split.
  - simpl. lia.
  - apply channelLabel_rows; lia.
Qed.

(** C5, as the code has it: a frequency reached by stepping from the
    default is on a labelled channel (tag C or S and a channel number),
    except the five steps 69.25, 76.25, 83.25, 90.25 and 97.25 MHz between
    the end of the lowest band and 105.25 MHz, which the channel table does
    not cover: there the display shows the fallback tag and no number. *)
Theorem reachable_channel_labels (fw : firmware) :
  stepped fw ->
  let f := frequency_of fw in
  ((labelled f /\ (f < 6925 \/ 9725 < f)) \/
   (In f [6925; 7625; 8325; 9025; 9725] /\ channelLabel f = (chr "-", 0))) /\
  (forall g, In g [6925; 7625; 8325; 9025; 9725] ->
     exists fw', stepped fw' /\ frequency_of fw' = g).
Proof.
  intros S f. destruct (stepped_invariant fw S) as [G _]. fold f in G. split.
  - destruct (Z.lt_ge_cases f 6925) as [L | L].
    + left. split; [apply labelled_on_grid |]; auto.
    + destruct (Z.lt_ge_cases 9725 f) as [M | M].
      * left. split; [apply labelled_on_grid |]; auto.
      * right. apply unlabelled_on_grid; auto.
  - intros g I. apply (on_grid_reached (eeprom fw)).
    left. cbn [In] in I. split; [lia |].
    destruct I as [I | [I | [I | [I | [I | []]]]]]; subst g; reflexivity.
Qed.

Lemma reachable_channel_labels_witness :
  (labelled 47925 /\ (47925 < 6925 \/ 9725 < 47925)) \/
  (In 47925 [6925; 7625; 8325; 9025; 9725] /\ channelLabel 47925 = (chr "-", 0)).
Proof.
  exact (proj1 (reachable_channel_labels (incrementFrequency (power_on erased))
                  (stepped_up (power_on erased) (stepped_power_on erased)))).
Defined.

(** C5 as stated fails: 74 steps up from the default (or 51 steps down)
    the frequency is 69.25 MHz, which falls in the unlabelled fallback. *)
Lemma reachable_unlabelled_counterexample :
  let fw := Nat.iter 74 incrementFrequency (power_on erased) in
  stepped fw /\
  frequency_of fw = 6925 /\
  channelLabel (frequency_of fw) = (chr "-", 0) /\
  ~ labelled (frequency_of fw).
Proof.
  split; [apply stepped_iter_up |].
  split; [vm_compute; reflexivity |].
  split; [vm_compute; reflexivity |].
  intros [[H | H] _]; vm_compute in H; discriminate.
Qed.

(** ** Stepping there and back *)

Lemma step_up_down (fw : firmware) :
  on_grid (frequency_of fw) ->
  frequency_of (decrementFrequency (incrementFrequency fw)) = frequency_of fw.
Proof.
  unfold on_grid. intros G.
  assert (C : (4125 <= frequency_of fw < 9725 \/ 10525 <= frequency_of fw < 29425) \/
              (9725 <= frequency_of fw < 10525 \/ 30325 <= frequency_of fw < 102325) \/
              29425 <= frequency_of fw < 30325 \/ 102325 <= frequency_of fw) by lia.
  destruct (incrementFrequency_frequency fw) as (U7 & U8 & U9 & Uw).
  destruct (decrementFrequency_frequency (incrementFrequency fw)) as (E7 & E8 & E9 & Ew).
  destruct C as [C | [C | [C | C]]].
  - specialize (U7 C). clear U8 U9 Uw E8 E9 Ew. rewrite E7; lia.
  - specialize (U8 C). clear U7 U9 Uw E7 E9 Ew. rewrite E8; lia.
  - specialize (U9 C). clear U7 U8 Uw E7 E8 Ew. rewrite E9; lia.
  - specialize (Uw C). clear U7 U8 U9 E7 E8 E9. rewrite Ew; lia.
Qed.

Lemma step_down_up (fw : firmware) :
  on_grid (frequency_of fw) ->
  frequency_of (incrementFrequency (decrementFrequency fw)) = frequency_of fw.
Proof.
  unfold on_grid. intros G.
  assert (C : (4125 < frequency_of fw <= 9725 \/ 10525 < frequency_of fw <= 29425) \/
              (9725 < frequency_of fw <= 10525 \/ 30325 < frequency_of fw <= 102325) \/
              29425 < frequency_of fw <= 30325 \/ frequency_of fw <= 4125) by lia.
  destruct (decrementFrequency_frequency fw) as (D7 & D8 & D9 & Dw).
  destruct (incrementFrequency_frequency (decrementFrequency fw)) as (V7 & V8 & V9 & Vw).
  destruct C as [C | [C | [C | C]]].
  - specialize (D7 C). clear D8 D9 Dw V8 V9 Vw. rewrite V7; lia.
  - specialize (D8 C). clear D7 D9 Dw V7 V9 Vw. rewrite V8; lia.
  - specialize (D9 C). clear D7 D8 Dw V7 V8 Vw. rewrite V9; lia.
  - specialize (Dw C). clear D7 D8 D9 V7 V8 V9. rewrite Vw; lia.
Qed.

(** C6, as the code has it: from every frequency reached by stepping, a
    step up followed by a step down, and a step down followed by a step up,
    restore the settings and the divider; the two ends of the range are no
    exception, since the wrap from 1023.25 to 41.25 MHz is undone by the
    wrap from 41.25 to 1023.25 MHz. *)
Theorem step_round_trip (fw : firmware) :
  stepped fw ->
  currentSettings (decrementFrequency (incrementFrequency fw)) = currentSettings fw /\
  frequencyDivisor (decrementFrequency (incrementFrequency fw)) = frequencyDivisor fw /\
  currentSettings (incrementFrequency (decrementFrequency fw)) = currentSettings fw /\
  frequencyDivisor (incrementFrequency (decrementFrequency fw)) = frequencyDivisor fw.
Proof.
  intros S. destruct (stepped_invariant fw S) as [G Y].
  pose proof (step_up_down fw G) as R1. pose proof (step_down_up fw G) as R2.
  destruct (incrementFrequency_keeps fw) as (a1 & a2 & _).
  destruct (decrementFrequency_keeps fw) as (b1 & b2 & _).
  destruct (decrementFrequency_keeps (incrementFrequency fw)) as (c1 & c2 & _).
  destruct (incrementFrequency_keeps (decrementFrequency fw)) as (d1 & d2 & _).
  assert (E1 : currentSettings (decrementFrequency (incrementFrequency fw)) = currentSettings fw)
    by (apply settings_ext; [congruence | congruence | exact R1]).
  assert (E2 : currentSettings (incrementFrequency (decrementFrequency fw)) = currentSettings fw)
    by (apply settings_ext; [congruence | congruence | exact R2]).
  repeat split; try assumption.
  - rewrite <- Y. rewrite <- (in_sync_decrementFrequency (incrementFrequency fw)).
    unfold setFrequencyDivider. rewrite E1. split_tests; reflexivity.
  - rewrite <- Y. rewrite <- (in_sync_incrementFrequency (decrementFrequency fw)).
    unfold setFrequencyDivider. rewrite E2. split_tests; reflexivity.
Qed.

Lemma step_round_trip_witness :
  currentSettings (decrementFrequency (incrementFrequency (power_on erased))) =
    currentSettings (power_on erased).
Proof.
  apply (step_round_trip (power_on erased) (stepped_power_on erased)).
Defined.

(** C6 as stated sets the two wrap boundaries apart as frequencies where a
    step up and a step down do not return; they do return: 1023.25 MHz
    steps up to 41.25 and back down to 1023.25, and 41.25 MHz steps up to
    48.25 and back down to 41.25. *)
Lemma wrap_boundary_round_trips :
  let top := Nat.iter 69 incrementFrequency (power_on erased) in
  let bottom := Nat.iter 70 incrementFrequency (power_on erased) in
  stepped top /\ frequency_of top = 102325 /\
  frequency_of (incrementFrequency top) = 4125 /\
  frequency_of (decrementFrequency (incrementFrequency top)) = 102325 /\
  stepped bottom /\ frequency_of bottom = 4125 /\
  frequency_of (decrementFrequency (incrementFrequency bottom)) = 4125.
Proof.
  split; [apply stepped_iter_up |].
  do 3 (split; [vm_compute; reflexivity |]).
  split; [apply stepped_iter_up |].
  split; vm_compute; reflexivity.
Qed.

(** ** The function button *)

(** C9, as the code has it: in the idle state a released event of the
    function button selects channel editing, exactly as a long press does;
    it moves the cursor to column 2 and changes neither the settings, the
    EEPROM nor the I2C log.  Every other event type leaves the state as it
    is. *)
Theorem idle_release_enters_channel (fw : firmware) :
  function fw = fnIdle ->
  function (handleFEvent kEventReleased fw) = fnChannel /\
  function (handleFEvent kEventLongPressed fw) = fnChannel /\
  cursor (lcd (handleFEvent kEventReleased fw)) = 2 /\
  currentSettings (handleFEvent kEventReleased fw) = currentSettings fw /\
  eeprom (handleFEvent kEventReleased fw) = eeprom fw /\
  wire (handleFEvent kEventReleased fw) = wire fw /\
  (forall ev, ev <> kEventReleased -> ev <> kEventLongPressed -> handleFEvent ev fw = fw).
Proof.
  intros I. unfold handleFEvent. rewrite I. simpl.
  repeat split. intros ev R L. destruct ev; congruence.
Qed.

Lemma idle_release_enters_channel_witness :
  function (handleFEvent kEventReleased (power_on erased)) = fnChannel.
Proof.
  apply (idle_release_enters_channel (power_on erased)). reflexivity.
Defined.

(** C9 as stated fails: at power-on the state is idle, and a released
    event of the function button leaves it in channel editing. *)
Lemma idle_release_counterexample :
  function (power_on erased) = fnIdle /\
  function (handleFEvent kEventReleased (power_on erased)) = fnChannel /\
  function (handleFEvent kEventReleased (power_on erased)) <> fnIdle.
Proof. split; [reflexivity | split; [reflexivity | discriminate]]. Qed.

(** ** Bit fields as arithmetic *)

Lemma lor_mul_low (a b n : Z) :
  0 <= n -> 0 <= b < 2 ^ n -> Z.lor (a * 2 ^ n) b = a * 2 ^ n + b.
Proof.
  intros Hn Hb. rewrite <- Z.add_lor_land.
  replace (Z.land (a * 2 ^ n) b) with 0; [lia |].
  symmetry. apply Z.bits_inj'. intros i Hi.
  rewrite Z.land_spec, Z.bits_0, <- Z.shiftl_mul_pow2 by assumption.
  destruct (Z.lt_ge_cases i n).
  - rewrite Z.shiftl_spec_low by assumption. reflexivity.
  - rewrite <- (Z.mod_small b (2 ^ n)) by assumption.
    rewrite Z.mod_pow2_bits_high by lia. apply andb_false_r.
Qed.

Lemma land_field (x n k : Z) :
  0 <= n -> 0 <= k ->
  Z.land x (Z.shiftl (Z.ones k) n) = (x / 2 ^ n) mod 2 ^ k * 2 ^ n.
Proof.
  intros Hn Hk.
  rewrite <- Z.land_ones, <- Z.shiftr_div_pow2, <- Z.shiftl_mul_pow2 by assumption.
  apply Z.bits_inj'. intros i Hi.
  rewrite Z.land_spec, !Z.shiftl_spec, Z.land_spec by assumption.
  destruct (Z.lt_ge_cases i n).
  - rewrite !(Z.testbit_neg_r _ (i - n)) by lia. rewrite andb_false_r. reflexivity.
  - rewrite Z.shiftr_spec by lia. replace (i - n + n) with i by lia. reflexivity.
Qed.

Lemma land_3 (x : Z) : Z.land x 3 = x mod 4.
Proof. change 3 with (Z.ones 2). rewrite Z.land_ones by lia. reflexivity. Qed.

Lemma land_1 (x : Z) : Z.land x 1 = x mod 2.
Proof. change 1 with (Z.ones 1) at 1. rewrite Z.land_ones by lia. reflexivity. Qed.

Lemma land_63 (x : Z) : Z.land x 63 = x mod 64.
Proof. change 63 with (Z.ones 6). rewrite Z.land_ones by lia. reflexivity. Qed.

Lemma land_12 (x : Z) : Z.land x 12 = (x / 4) mod 4 * 4.
Proof. change 12 with (Z.shiftl (Z.ones 2) 2). rewrite land_field by lia. reflexivity. Qed.

Lemma land_48 (x : Z) : Z.land x 48 = (x / 16) mod 4 * 16.
Proof. change 48 with (Z.shiftl (Z.ones 2) 4). rewrite land_field by lia. reflexivity. Qed.

Lemma shiftl_6 (x : Z) : Z.shiftl x 6 = x * 2 ^ 6.
Proof. apply Z.shiftl_mul_pow2. lia. Qed.

Lemma shiftl_3 (x : Z) : Z.shiftl x 3 = x * 2 ^ 3.
Proof. apply Z.shiftl_mul_pow2. lia. Qed.

Lemma shiftl_2 (x : Z) : Z.shiftl x 2 = x * 2 ^ 2.
Proof. apply Z.shiftl_mul_pow2. lia. Qed.

Lemma shiftr_n (x n : Z) : 0 <= n -> Z.shiftr x n = x / 2 ^ n.
Proof. apply Z.shiftr_div_pow2. Qed.

(** The register bytes of the parameterless [writeConfig], as numbers. *)

Lemma byteC1_value (X : Z) :
  byteC1 0 0 0 X 0 = 128 + 2 * ((X / 4) mod 4).
Proof.
  unfold byteC1, uint8_t.
  change (Z.shiftl (Z.land 0 1) 5) with 0. change (Z.shiftl (Z.land 0 1) 4) with 0.
  change (Z.shiftl (Z.land 0 1) 3) with 0. change (Z.land 0 1) with 0.
  rewrite !Z.lor_0_r, land_12, shiftr_n by lia.
  change 128 with (1 * 2 ^ 7). rewrite lor_mul_low by lia.
  rewrite Z.mod_small; lia.
Qed.

Lemma byteC0_value (SFD X : Z) :
  byteC0 0 0 0 SFD 0 X = 8 * (SFD mod 4) + (X / 16) mod 4.
Proof.
  unfold byteC0, uint8_t.
  change (Z.shiftl (Z.land 0 1) 7) with 0. change (Z.shiftl (Z.land 0 1) 6) with 0.
  change (Z.shiftl (Z.land 0 1) 5) with 0. change (Z.shiftl (Z.land 0 1) 2) with 0.
  rewrite !Z.lor_0_r, !Z.lor_0_l, land_3, land_48, shiftl_3, shiftr_n by lia.
  rewrite lor_mul_low by lia. rewrite Z.mod_small; lia.
Qed.

Lemma byteFM_value (TPEN bits : Z) :
  0 <= bits < 2 ^ 16 ->
  byteFM TPEN bits = 64 * (TPEN mod 2) + (bits / 64) mod 64.
Proof.
  intros B. unfold byteFM, uint8_t, uint16_t.
  rewrite (Z.mod_small bits) by lia.
  rewrite (Z.land_comm 63), land_63, land_1, shiftl_6, shiftr_n by lia.
  rewrite (Z.mod_small (_ mod 64)) by lia.
  rewrite lor_mul_low by lia. rewrite Z.mod_small; lia.
Qed.

Lemma byteFL_value (bits X : Z) :
  byteFL bits X = 4 * (bits mod 64) + X mod 4.
Proof.
  unfold byteFL, uint8_t.
  rewrite land_63, land_3, shiftl_2. rewrite lor_mul_low by lia.
  rewrite Z.mod_small; lia.
Qed.

Lemma frequencyBits_range (fw : firmware) (f : Z) : 0 <= frequencyBits fw f < 2 ^ 16.
Proof. unfold frequencyBits, uint16_t. apply Z.mod_pos_bound. lia. Qed.

Lemma frame_C1_value (X : Z) : frame_C1 0 0 X 0 = 128 + 2 * ((X / 4) mod 4).
Proof.
  unfold frame_C1. change (Z.shiftl 0 4) with 0. change (Z.shiftl 0 3) with 0.
  rewrite !Z.lor_0_r, land_12, shiftr_n by lia.
  change 128 with (1 * 2 ^ 7). rewrite lor_mul_low by lia. lia.
Qed.

Lemma frame_C0_value (SFD X : Z) :
  frame_C0 0 0 0 SFD 0 X = 8 * (SFD mod 4) + (X / 16) mod 4.
Proof.
  unfold frame_C0. change (Z.shiftl 0 7) with 0. change (Z.shiftl 0 6) with 0.
  change (Z.shiftl 0 5) with 0. change (Z.shiftl 0 2) with 0.
  rewrite !Z.lor_0_r, !Z.lor_0_l, land_3, land_48, shiftl_3, shiftr_n by lia.
  rewrite lor_mul_low by lia. lia.
Qed.

Lemma frame_FM_value (TPEN bits : Z) :
  frame_FM TPEN bits = 64 * TPEN + (bits / 64) mod 64.
Proof.
  unfold frame_FM. rewrite land_63, shiftl_6, shiftr_n by lia.
  rewrite lor_mul_low by lia. lia.
Qed.

Lemma frame_FL_value (bits X : Z) : frame_FL bits X = 4 * (bits mod 64) + X mod 4.
Proof.
  unfold frame_FL. rewrite land_63, land_3, shiftl_2. rewrite lor_mul_low by lia. lia.
Qed.

(** What [writeConfig] sends and what it leaves alone. *)
Lemma writeConfig_effect (fw : firmware) :
  wire (writeConfig fw) =
    wire fw ++
    [mkTransmission 101
       [ byteC1 0 0 0 (frequencyDivisor fw) 0;
         byteC0 0 0 0 (standard (currentSettings fw)) 0 (frequencyDivisor fw);
         byteFM (testPatternEnable (currentSettings fw))
                (frequencyBits fw (frequency_of fw));
         byteFL (frequencyBits fw (frequency_of fw)) (frequencyDivisor fw) ]] /\
  currentSettings (writeConfig fw) = currentSettings fw /\
  frequencyDivisor (writeConfig fw) = frequencyDivisor fw /\
  function (writeConfig fw) = function fw /\
  eeprom (writeConfig fw) = eeprom fw.
Proof. repeat split. Qed.

(** On a sixteen-cell display [writeConfig] replaces the whole line and
    leaves the cursor on the column of the function in force.  The cell of
    the standard is the array element only for a standard within 0..3; the
    other fifteen cells do not depend on it. *)
Lemma writeConfig_display (fw : firmware) :
  List.length (cells (lcd fw)) = 16%nat ->
  let s := currentSettings fw in
  let shown := cells (lcd (writeConfig fw)) in
  List.length shown = 16%nat /\
  (forall i : nat, i <> 14%nat ->
     nth i shown 0 =
     nth i (map uint8_t (display_text fw (standard s) (testPatternEnable s)
                           (frequency_of fw))) 0) /\
  (0 <= standard s <= 3 ->
     shown = map uint8_t (display_text fw (standard s) (testPatternEnable s)
                            (frequency_of fw))) /\
  (0 <= function fw <= 3 ->
     cursor (lcd (writeConfig fw)) = nth (Z.to_nat (function fw)) fnCursorPositions 0).
Proof.
  intros L s shown.
  assert (E : shown = map uint8_t (display_text fw (standard s) (testPatternEnable s)
                                     (frequency_of fw))).
  { subst shown s. destruct fw as [s d fn e [cs cur] w]. cbn [lcd cells] in L.
    do 16 (destruct cs as [| ? cs]; [discriminate L |]).
    destruct cs; [| discriminate L].
    reflexivity. }
  split; [rewrite E; reflexivity |].
  split; [intros i _; rewrite E; reflexivity |].
  split; [intros _; exact E | intros _; reflexivity].
Qed.

(** The line depends on the state only through the divider. *)
Lemma display_text_ext (fw fw' : firmware) (SFD TPEN f : Z) :
  frequencyDivisor fw' = frequencyDivisor fw ->
  display_text fw' SFD TPEN f = display_text fw SFD TPEN f.
Proof. intros D. unfold display_text, frequencyDivisorPow. rewrite D. reflexivity. Qed.

(** At the first start the line reads "C21  471.25 1 IT" and the cursor is
    parked past its end. *)
Example default_display :
  cells (lcd (setup false (power_on erased))) =
    map chr (list_ascii_of_string "C21  471.25 1 IT") /\
  cursor (lcd (setup false (power_on erased))) = 16.
Proof. split; vm_compute; reflexivity. Qed.

(** ** The register frame *)





(** ** The frequency word of the reachable frequencies *)

Lemma grid_divisor (fw : firmware) :
  on_grid (frequency_of fw) -> in_sync fw ->
  let f := frequency_of fw in
  let d := frequencyDivisor fw in
  (d = 0 /\ 42325 < f <= 102325) \/
  (d = 1 /\ 21025 < f <= 42325) \/
  (d = 2 /\ 10525 < f <= 21025) \/
  (d = 3 /\ 4125 <= f <= 10525).
Proof.
  intros G Y f d.
  destruct (setFrequencyDivider_divisor fw) as (B0 & B1 & B2 & B3 & _).
  unfold in_sync in Y. rewrite Y in *. fold f d in G, B0, B1, B2, B3.
  assert (R : 4125 <= f <= 102325) by (unfold on_grid in G; lia).
  clear G. lia.
Qed.

Lemma frequency_word_of_grid (fw : firmware) :
  on_grid (frequency_of fw) -> in_sync fw ->
  let f := frequency_of fw in
  let d := frequencyDivisor fw in
  let bits := frequencyBits fw f in
  f mod 25 = 0 /\
  4125 <= f <= 102325 /\
  0 <= d <= 3 /\
  (2 ^ d * f) mod 25 = 0 /\
  bits = 2 ^ d * f / 25 /\
  0 <= bits < 4096.
Proof.
  intros G Y f d bits.
  pose proof (grid_divisor fw G Y) as D. cbv zeta in D. fold f d in D. fold f in G.
  assert (M : f mod 25 = 0) by (unfold on_grid in G; lia).
  assert (R : 4125 <= f <= 102325) by (unfold on_grid in G; lia).
  clear G.
  assert (P : frequencyDivisorPow fw = 2 ^ d /\ 0 <= d <= 3).
  { unfold frequencyDivisorPow. fold d.
    destruct D as [[E _] | [[E _] | [[E _] | [E _]]]]; rewrite E; split; (reflexivity || lia). }
  destruct P as [P Rd].
  assert (V : bits = 2 ^ d * f / 25 /\ (2 ^ d * f) mod 25 = 0 /\ 0 <= bits < 4096).
  { unfold bits, frequencyBits. rewrite P. unfold_ints.
    destruct D as [[E B] | [[E B] | [[E B] | [E B]]]]; rewrite E;
      [ change (2 ^ 0) with 1 | change (2 ^ 1) with 2
      | change (2 ^ 2) with 4 | change (2 ^ 3) with 8 ];
      rewrite (Z.mod_small _ (2 ^ 32)) by lia;
      rewrite (Z.mod_small _ (2 ^ 32)) by lia;
      rewrite (Z.mod_small _ (2 ^ 16)) by lia; lia. }
  destruct V as (V1 & V2 & V3).
  repeat split; first [assumption | lia].
Qed.

(** C10: a frequency reached by stepping from the default is a multiple of
    0.25 MHz between 41.25 and 1023.25 MHz, and the divider in force is the
    one of its band.  So the quotient [2^divisor * frequency / 25] is exact,
    overflows neither the 32-bit product nor the 16-bit variable, and is
    below 4096: the two 6-bit fields of FM and FL in the frame that
    [writeConfig] sends give the whole frequency word back. *)
Theorem frequency_word_exact (fw : firmware) :
  stepped fw ->
  let f := frequency_of fw in
  let d := frequencyDivisor fw in
  let bits := frequencyBits fw f in
  f mod 25 = 0 /\
  4125 <= f <= 102325 /\
  d = frequencyDivisor (setFrequencyDivider fw) /\
  0 <= d <= 3 /\
  (2 ^ d * f) mod 25 = 0 /\
  bits = 2 ^ d * f / 25 /\
  0 <= bits < 4096 /\
  exists C1 C0 FM FL,
    wire (writeConfig fw) = wire fw ++ [mkTransmission 0x65 [C1; C0; FM; FL]] /\
    64 * (FM mod 64) + FL / 4 = bits.
Proof.
  intros S f d bits.
  destruct (stepped_invariant fw S) as [G Y].
  destruct (frequency_word_of_grid fw G Y) as (M & R & Rd & V2 & V1 & V3).
  fold f d bits in M, R, Rd, V2, V1, V3.
  split; [exact M |]. split; [exact R |]. split; [symmetry; exact Y |].
  split; [exact Rd |]. split; [exact V2 |]. split; [exact V1 |]. split; [exact V3 |].
  destruct (writeConfig_effect fw) as (W & _).
  do 4 eexists. split; [exact W |].
  fold f bits d. rewrite byteFL_value, byteFM_value by (fold bits; lia).
  fold bits. lia.
Qed.

Lemma frequency_word_exact_witness :
  frequencyBits (power_on erased) 47125 = 2 ^ 0 * 47125 / 25.
Proof.
  destruct (frequency_word_exact (power_on erased) (stepped_power_on erased))
    as (_ & _ & _ & _ & _ & B & _).
  exact B.
Defined.

(** ** The persisted block *)

Lemma word_join (lo hi n : Z) :
  0 <= n -> 0 <= lo < 2 ^ n -> Z.lor lo (Z.shiftl hi n) = lo + hi * 2 ^ n.
Proof.
  intros Hn Hlo. rewrite Z.lor_comm, Z.shiftl_mul_pow2 by assumption.
  rewrite lor_mul_low by assumption. lia.
Qed.

(** The checksum loop computes the sum of the bytes modulo 2^16. *)
Lemma checksum_loop (p : list Z) (a : Z) :
  fold_left (fun checksum b => uint16_t (checksum + b)) p (uint16_t a) =
  uint16_t (a + fold_right Z.add 0 p).
Proof.
  revert a. induction p as [| b p IH]; intros a; cbn [fold_left fold_right].
  - rewrite Z.add_0_r. reflexivity.
  - replace (uint16_t (uint16_t a + b)) with (uint16_t (a + b))
      by (unfold uint16_t; rewrite Z.add_mod_idemp_l by lia; reflexivity).
    rewrite IH. f_equal. lia.
Qed.

Lemma checksum_of_sum (p : list Z) :
  checksum_of p = (fold_right Z.add 0 p) mod 2 ^ 16.
Proof. unfold checksum_of. apply (checksum_loop p 0). Qed.

Lemma settings_bytes_range (s : settings_t) : Forall is_byte (settings_bytes s).
Proof.
  unfold settings_bytes, is_byte, uint8_t.
  repeat constructor; apply Z.mod_pos_bound; lia.
Qed.

(** Reading back the byte image of a well-typed struct. *)
Lemma settings_of_bytes_image (s : settings_t) :
  0 <= testPatternEnable s < 2 ^ 8 ->
  0 <= standard s < 2 ^ 8 ->
  0 <= frequencyTimes100 s < 2 ^ 32 ->
  settings_of_bytes (settings_bytes s) = s.
Proof.
  intros T S F. unfold settings_of_bytes, settings_bytes, uint8_t. cbn [nth].
  rewrite !shiftr_n by lia.
  rewrite (word_join _ _ 8) by lia.
  rewrite (word_join _ _ 16) by lia.
  rewrite (word_join _ _ 24) by lia.
  apply settings_ext; cbn [testPatternEnable standard frequencyTimes100]; lia.
Qed.

(** What [currentSettings_load] decides on, cell by cell. *)
Lemma load_unfolded (fw : firmware) :
  let e := eeprom fw in
  let p := [e 2; e 3; e 4; e 5; e 6; e 7] in
  currentSettings_load fw =
    if (Z.lor (e 8) (Z.shiftl (e 9) 8) =? checksum_of p)
       && (Z.lor (e 0) (Z.shiftl (e 1) 8) =? EEPROM_HEADER)
    then (0, set_currentSettings (settings_of_bytes p) fw)
    else (1, fw).
Proof. reflexivity. Qed.

Lemma load_accepts_iff (fw : firmware) :
  let e := eeprom fw in
  Forall is_byte (block_cells e) ->
  (fst (currentSettings_load fw) = 0 <->
   e 0 = 0x45 /\ e 1 = 0x4E /\
   e 8 + 256 * e 9 = (e 2 + e 3 + e 4 + e 5 + e 6 + e 7) mod 2 ^ 16).
Proof.
  intros e B. rewrite load_unfolded. fold e.
  rewrite checksum_of_sum. cbn [fold_right].
  unfold block_cells, CURRENTSETTINGS_ADDRESS in B. cbn [eeprom_read_block Z.add Pos.add Pos.succ] in B.
  repeat match goal with
  | H : Forall _ (_ :: _) |- _ => inversion H; subst; clear H
  end.
  unfold is_byte in *.
  rewrite !(word_join _ _ 8) by lia. unfold EEPROM_HEADER.
  split_tests; cbn [andb fst]; lia.
Qed.

Lemma load_verdict (fw : firmware) :
  (fst (currentSettings_load fw) = 0 /\
   snd (currentSettings_load fw) =
     set_currentSettings
       (settings_of_bytes (eeprom_read_block 2 6 (eeprom fw))) fw) \/
  (fst (currentSettings_load fw) = 1 /\ snd (currentSettings_load fw) = fw).
Proof.
  rewrite load_unfolded.
  match goal with |- context [if ?c then _ else _] => destruct c end;
    [left | right]; split; reflexivity.
Qed.

(** The cells of the EEPROM after [currentSettings_save]. *)
Lemma save_cells (fw : firmware) :
  let e := eeprom (snd (currentSettings_save fw)) in
  let p := settings_bytes (currentSettings fw) in
  e 0 = 0x45 /\ e 1 = 0x4E /\
  eeprom_read_block 2 6 e = p /\
  e 8 = (checksum_of p) mod 2 ^ 8 /\
  e 9 = (checksum_of p / 2 ^ 8) mod 2 ^ 8 /\
  (forall a, a < 0 \/ 10 <= a -> e a = eeprom fw a).
Proof.
  intros e p.
  assert (C : 0 <= checksum_of p < 2 ^ 16)
    by (rewrite checksum_of_sum; apply Z.mod_pos_bound; lia).
  split; [reflexivity |]. split; [reflexivity |].
  split.
  { change (eeprom_read_block 2 6 e) with (map uint8_t p).
    unfold p, settings_bytes, uint8_t. cbn [map].
    rewrite !Z.mod_mod by lia. reflexivity. }
  split; [reflexivity |].
  split.
  { change (e 9) with (uint8_t (Z.shiftr (uint16_t (checksum_of p)) 8)).
    unfold uint8_t, uint16_t. rewrite (Z.mod_small (checksum_of p)) by lia.
    rewrite shiftr_n by lia. reflexivity. }
  intros a R. subst e. cbn [currentSettings_save snd eeprom set_eeprom].
  unfold eeprom_write_word, settings_bytes.
  unfold CURRENTSETTINGS_ADDRESS, sizeof_header, sizeof_settings.
  cbn [Z.add Pos.add Pos.succ eeprom_write_block].
  unfold eeprom_write_byte.
  split_tests; try lia; reflexivity.
Qed.

Lemma save_cells_bytes (fw : firmware) :
  Forall is_byte (block_cells (eeprom (snd (currentSettings_save fw)))).
Proof.
  destruct (save_cells fw) as (E0 & E1 & EB & E8 & E9 & _).
  change (block_cells (eeprom (snd (currentSettings_save fw)))) with
    (let e := eeprom (snd (currentSettings_save fw)) in
     e 0 :: e 1 :: eeprom_read_block 2 6 e ++ [e 8; e 9]).
  cbv zeta. rewrite E0, E1, EB, E8, E9.
  apply Forall_cons; [unfold is_byte; lia |].
  apply Forall_cons; [unfold is_byte; lia |].
  apply Forall_app. split; [apply settings_bytes_range |].
  apply Forall_cons; [unfold is_byte; apply Z.mod_pos_bound; lia |].
  apply Forall_cons; [unfold is_byte; apply Z.mod_pos_bound; lia |].
  apply Forall_nil.
Qed.

Lemma block_of_cells (e : Z -> Z) :
  eeprom_read_block 2 6 e = [e 2; e 3; e 4; e 5; e 6; e 7].
Proof. reflexivity. Qed.

(** Any state whose EEPROM is the one a save left behind loads the saved
    settings. *)
Lemma load_after_save (fw fw' : firmware) :
  let s := currentSettings fw in
  0 <= testPatternEnable s < 2 ^ 8 ->
  0 <= standard s < 2 ^ 8 ->
  0 <= frequencyTimes100 s < 2 ^ 32 ->
  eeprom fw' = eeprom (snd (currentSettings_save fw)) ->
  fst (currentSettings_load fw') = 0 /\
  currentSettings (snd (currentSettings_load fw')) = s.
Proof.
  intros s T S F E.
  destruct (save_cells fw) as (E0 & E1 & EB & E8 & E9 & _).
  pose proof (save_cells_bytes fw) as B.
  rewrite <- E in E0, E1, EB, E8, E9, B. fold s in EB, E8, E9.
  assert (A : fst (currentSettings_load fw') = 0).
  { apply load_accepts_iff; [exact B |].
    rewrite E0, E1, E8, E9, checksum_of_sum.
    pose proof (settings_bytes_range s) as R.
    rewrite block_of_cells in EB. rewrite <- EB in *. cbn [fold_right].
    repeat match goal with
    | H : Forall _ (_ :: _) |- _ => inversion H; subst; clear H
    end.
    unfold is_byte in *. repeat split. lia. }
  split; [exact A |].
  destruct (load_verdict fw') as [[_ V] | [V _]].
  - rewrite V, EB. cbn [currentSettings set_currentSettings].
    apply settings_of_bytes_image; assumption.
  - rewrite A in V. discriminate.
Qed.

(** ** Saving and loading *)

(** C7: [currentSettings_save] writes the byte image of the settings, and
    a [currentSettings_load] from the EEPROM it leaves behind, at once or
    after a power cycle has put the live settings back to the defaults,
    accepts the block and makes the live settings the saved ones, byte for
    byte. *)
Theorem save_then_load (fw fw' : firmware) :
  let s := currentSettings fw in
  0 <= testPatternEnable s < 2 ^ 8 ->
  0 <= standard s < 2 ^ 8 ->
  0 <= frequencyTimes100 s < 2 ^ 32 ->
  let saved := snd (currentSettings_save fw) in
  eeprom fw' = eeprom saved ->
  fst (currentSettings_save fw) = 6 /\
  currentSettings saved = s /\
  eeprom_read_block 2 6 (eeprom saved) = settings_bytes s /\
  fst (currentSettings_load saved) = 0 /\
  currentSettings (snd (currentSettings_load saved)) = s /\
  fst (currentSettings_load fw') = 0 /\
  currentSettings (snd (currentSettings_load fw')) = s.
Proof.
  intros s T S F saved E.
  destruct (save_cells fw) as (_ & _ & EB & _).
  destruct (load_after_save fw saved T S F eq_refl) as [A1 L1].
  destruct (load_after_save fw fw' T S F E) as [A2 L2].
  split; [reflexivity |]. split; [reflexivity |]. split; [exact EB |].
  split; [exact A1 |]. split; [exact L1 |]. split; [exact A2 | exact L2].
Qed.

Lemma save_then_load_witness :
  let fw := set_currentSettings (mkSettings 0 3 4125) (power_on erased) in
  let fw' := power_on (eeprom (snd (currentSettings_save fw))) in
  fst (currentSettings_load fw') = 0 /\
  currentSettings (snd (currentSettings_load fw')) = mkSettings 0 3 4125.
Proof.
  intros fw fw'.
  destruct (save_then_load fw fw') as (_ & _ & _ & _ & _ & A & L);
    [cbn; lia | cbn; lia | cbn; lia | reflexivity |].
  split; [exact A | exact L].
Defined.

(** ** Accepting and rejecting the stored block *)

Lemma load_accepts_words (fw : firmware) :
  let e := eeprom fw in
  fst (currentSettings_load fw) = 0 <->
  eeprom_read_word 0 e = 0x4E45 /\
  eeprom_read_word 8 e = (fold_right Z.add 0 (eeprom_read_block 2 6 e)) mod 2 ^ 16.
Proof.
  intros e. rewrite load_unfolded. fold e. rewrite checksum_of_sum.
  unfold eeprom_read_word, EEPROM_HEADER. rewrite block_of_cells.
  cbn [Z.add Pos.add Pos.succ].
  split_tests; cbn [andb fst]; intuition congruence.
Qed.

Lemma corrupted_cells_bytes (e : Z -> Z) (a v : Z) :
  Forall is_byte (block_cells e) ->
  Forall is_byte (block_cells (eeprom_write_byte a v e)).
Proof.
  unfold block_cells, CURRENTSETTINGS_ADDRESS.
  cbn [eeprom_read_block Z.add Pos.add Pos.succ]. intros B.
  repeat match goal with
  | H : Forall _ (_ :: _) |- _ => inversion H; subst; clear H
  end.
  unfold eeprom_write_byte, uint8_t.
  repeat apply Forall_cons; try apply Forall_nil;
    unfold is_byte in *; split_tests; try assumption; apply Z.mod_pos_bound; lia.
Qed.

(** A block with one cell overwritten by a different byte is rejected. *)
Lemma corrupted_block_rejected (src fw' : firmware) (a v : Z) :
  let saved := snd (currentSettings_save src) in
  0 <= a < 10 ->
  is_byte v ->
  v <> eeprom saved a ->
  eeprom fw' = eeprom_write_byte a v (eeprom saved) ->
  fst (currentSettings_load fw') <> 0.
Proof.
  intros saved Ra Bv D E.
  destruct (save_cells src) as (E0 & E1 & EB & E8 & E9 & _).
  pose proof (save_cells_bytes src) as B.
  pose proof (settings_bytes_range (currentSettings src)) as R.
  fold saved in E0, E1, EB, E8, E9, B.
  rewrite <- EB in R, E8, E9. clear EB. clearbody saved.
  rewrite checksum_of_sum, block_of_cells in E8, E9. rewrite block_of_cells in R.
  cbn [fold_right] in E8, E9.
  rewrite load_accepts_iff by (rewrite E; apply corrupted_cells_bytes, B).
  rewrite E. clear E B fw'. unfold eeprom_write_byte. unfold is_byte in Bv.
  unfold uint8_t. rewrite (Z.mod_small v) by lia.
  assert (C : a = 0 \/ a = 1 \/ a = 2 \/ a = 3 \/ a = 4 \/ a = 5 \/ a = 6 \/
              a = 7 \/ a = 8 \/ a = 9) by lia.
  clear Ra.
  remember (eeprom saved 0) as c0 eqn:Q0. remember (eeprom saved 1) as c1 eqn:Q1.
  remember (eeprom saved 2) as c2 eqn:Q2. remember (eeprom saved 3) as c3 eqn:Q3.
  remember (eeprom saved 4) as c4 eqn:Q4. remember (eeprom saved 5) as c5 eqn:Q5.
  remember (eeprom saved 6) as c6 eqn:Q6. remember (eeprom saved 7) as c7 eqn:Q7.
  remember (eeprom saved 8) as c8 eqn:Q8. remember (eeprom saved 9) as c9 eqn:Q9.
  repeat match goal with
  | H : Forall _ (_ :: _) |- _ => inversion H; subst; clear H
  end.
  unfold is_byte in *.
  repeat match goal with H : Forall _ [] |- _ => clear H end.
  destruct C as [C | [C | [C | [C | [C | [C | [C | [C | [C | C]]]]]]]]];
    subst a; cbn [Z.eqb Pos.eqb]; lia.
Qed.

Lemma load_verdict_eeprom (fw fw' : firmware) :
  eeprom fw = eeprom fw' ->
  fst (currentSettings_load fw) = fst (currentSettings_load fw').
Proof.
  intros E. rewrite !load_unfolded. rewrite E.
  match goal with |- context [if ?c then _ else _] => destruct c end; reflexivity.
Qed.

(** C8: [currentSettings_load] accepts the stored block exactly when the
    header word is 0x4E45 and the checksum word is the sum of the six
    settings bytes modulo 2^16.  An accepted block replaces the live
    settings and nothing else; a rejected one leaves the whole state as it
    was, so that after [setup] the settings are the built-in defaults (test
    pattern on, standard I, 471.25 MHz).  A saved block in which any one of
    the ten bytes has been replaced by a different byte is rejected. *)
Theorem load_accepts_exactly (fw : firmware) :
  let e := eeprom fw in
  let verdict := fst (currentSettings_load fw) in
  let after := snd (currentSettings_load fw) in
  (verdict = 0 <->
     eeprom_read_word 0 e = 0x4E45 /\
     eeprom_read_word 8 e = (fold_right Z.add 0 (eeprom_read_block 2 6 e)) mod 2 ^ 16) /\
  (verdict = 0 \/ verdict = 1) /\
  (verdict = 0 ->
     after = set_currentSettings (settings_of_bytes (eeprom_read_block 2 6 e)) fw) /\
  (verdict = 1 -> after = fw) /\
  (verdict = 1 ->
     currentSettings (setup false (power_on e)) = mkSettings 1 2 47125) /\
  (forall (src : firmware) (a v : Z),
     0 <= a < 10 -> is_byte v ->
     v <> eeprom (snd (currentSettings_save src)) a ->
     e = eeprom_write_byte a v (eeprom (snd (currentSettings_save src))) ->
     verdict = 1 /\ after = fw).
Proof.
  intros e verdict after.
  assert (V : verdict = 0 \/ verdict = 1)
    by (destruct (load_verdict fw) as [[V _] | [V _]]; auto).
  assert (R : verdict = 1 -> after = fw).
  { intros V1. destruct (load_verdict fw) as [[V0 _] | [_ A]]; [| exact A].
    unfold verdict in V1. rewrite V0 in V1. discriminate. }
  split; [apply load_accepts_words |].
  split; [exact V |].
  split.
  { intros V0. destruct (load_verdict fw) as [[_ A] | [V1 _]]; [exact A |].
    unfold verdict in V0. rewrite V0 in V1. discriminate. }
  split; [exact R |].
  split.
  { intros V1. unfold setup.
    match goal with |- currentSettings (writeConfig ?x) = _ =>
      destruct (writeConfig_effect x) as (_ & W & _); rewrite W; clear W
    end.
    match goal with |- currentSettings (snd (currentSettings_load ?x)) = _ =>
      destruct (load_verdict x) as [[V0 _] | [_ A]];
        [ rewrite (load_verdict_eeprom x fw eq_refl) in V0;
          unfold verdict in V1; rewrite V0 in V1; discriminate
        | rewrite A; reflexivity ]
    end. }
  intros src a v Ra Bv D E.
  assert (N : verdict <> 0)
    by (apply (corrupted_block_rejected src fw a v Ra Bv D E)).
  destruct V as [V | V]; [contradiction | auto].
Qed.

Lemma load_accepts_exactly_witness :
  fst (currentSettings_load (power_on erased)) = 1 /\
  currentSettings (setup false (power_on erased)) = mkSettings 1 2 47125 /\
  let saved := snd (currentSettings_save (power_on erased)) in
  fst (currentSettings_load (set_eeprom (eeprom_write_byte 4 20 (eeprom saved)) saved)) = 1.
Proof.
  destruct (load_accepts_exactly (power_on erased)) as (_ & _ & _ & _ & D & _).
  split; [vm_compute; reflexivity |].
  split; [apply D; vm_compute; reflexivity |].
  intros saved.
  destruct (load_accepts_exactly (set_eeprom (eeprom_write_byte 4 20 (eeprom saved)) saved))
    as (_ & _ & _ & _ & _ & C).
  apply (C (power_on erased) 4 20); [lia | unfold is_byte; lia | | reflexivity].
  vm_compute. discriminate.
Defined.

(** ** The divider after a load *)

(** [currentSettings_load] replaces the frequency without refreshing
    [frequencyDivisor], which only the two stepping functions do: after a
    start from a block saved at 210.25 MHz the frame is built with divisor
    exponent 0, where [setFrequencyDivider] gives 2 for that frequency and
    the frame with the derived exponent and word is another one. *)
Lemma divider_not_refreshed_by_load :
  let saved := snd (currentSettings_save
                      (setFrequencyDivider (set_frequencyTimes100 21025 (power_on erased)))) in
  let fw := setup false (power_on (eeprom saved)) in
  frequency_of fw = 21025 /\
  frequencyDivisor fw = 0 /\
  frequencyDivisor (setFrequencyDivider fw) = 2 /\
  wire fw = [mkTransmission 0x65 [128; 16; 77; 36]] /\
  frame_of (setFrequencyDivider fw) = mkTransmission 0x65 [128; 16; 116; 146].
Proof. repeat split; vm_compute; reflexivity. Qed.

(** ** The firmware in operation *)

Lemma in_sync_ext (fw fw' : firmware) :
  frequency_of fw' = frequency_of fw ->
  frequencyDivisor fw' = frequencyDivisor fw ->
  in_sync fw -> in_sync fw'.
Proof.
  unfold in_sync. intros F D Y. rewrite D, <- Y.
  destruct (setFrequencyDivider_divisor fw) as (A0 & A1 & A2 & A3 & A4).
  destruct (setFrequencyDivider_divisor fw') as (B0 & B1 & B2 & B3 & B4).
  rewrite F in *.
  assert (C : 42325 < frequency_of fw \/ 21025 < frequency_of fw <= 42325 \/
              10525 < frequency_of fw <= 21025 \/ 4125 <= frequency_of fw <= 10525 \/
              frequency_of fw < 4125) by lia.
  destruct C as [C | [C | [C | [C | C]]]];
    [ rewrite A0, B0 | rewrite A1, B1 | rewrite A2, B2
    | rewrite A3, B3 | rewrite A4, B4 ]; auto.
Qed.

Lemma sound_ext (fw fw' : firmware) :
  currentSettings fw' = currentSettings fw ->
  frequencyDivisor fw' = frequencyDivisor fw ->
  sound fw -> sound fw'.
Proof.
  unfold sound. intros S D (G & Y & T & R).
  assert (F : frequency_of fw' = frequency_of fw) by (unfold frequency_of; rewrite S; reflexivity).
  rewrite S, F. repeat split; try assumption; try apply R.
  apply (in_sync_ext fw fw'); assumption.
Qed.

Lemma sound_incrementFrequency (fw : firmware) : sound fw -> sound (incrementFrequency fw).
Proof.
  unfold sound. intros (G & Y & T & R).
  destruct (incrementFrequency_keeps fw) as (K1 & K2 & _). rewrite K1, K2.
  repeat split; try assumption; try apply R.
  - now apply on_grid_incrementFrequency.
  - apply in_sync_incrementFrequency.
Qed.

Lemma sound_decrementFrequency (fw : firmware) : sound fw -> sound (decrementFrequency fw).
Proof.
  unfold sound. intros (G & Y & T & R).
  destruct (decrementFrequency_keeps fw) as (K1 & K2 & _). rewrite K1, K2.
  repeat split; try assumption; try apply R.
  - now apply on_grid_decrementFrequency.
  - apply in_sync_decrementFrequency.
Qed.

Lemma sound_writeConfig (fw : firmware) : sound fw -> sound (writeConfig fw).
Proof.
  destruct (writeConfig_effect fw) as (_ & S & D & _). now apply sound_ext.
Qed.

Lemma sound_set_standard (fw : firmware) (v : Z) :
  sound fw -> sound (set_standard (uint8_t (Z.land v 3)) fw).
Proof.
  unfold sound. intros (G & Y & T & R). repeat split; try assumption.
  - apply (in_sync_ext fw); [reflexivity | reflexivity | assumption].
  - cbn. rewrite land_3. unfold uint8_t. lia.
  - cbn. rewrite land_3. unfold uint8_t. lia.
Qed.

Lemma sound_toggle (fw : firmware) :
  sound fw ->
  sound (set_testPatternEnable
           (uint8_t (Z.lxor (testPatternEnable (currentSettings fw)) 1)) fw).
Proof.
  unfold sound. intros (G & Y & T & R). repeat split; try assumption; try apply R.
  - apply (in_sync_ext fw); [reflexivity | reflexivity | assumption].
  - cbn. destruct T as [T | T]; rewrite T; [right | left]; reflexivity.
Qed.

Lemma sound_power_on (e : Z -> Z) : sound (power_on e).
Proof.
  unfold sound. split; [apply on_grid_power_on |]. split; [apply in_sync_power_on |].
  cbn. split; [right; reflexivity | lia].
Qed.

Lemma sound_set_lcd (l : lcd_t) (fw : firmware) : sound fw -> sound (set_lcd l fw).
Proof. apply sound_ext; reflexivity. Qed.

Lemma sound_set_function (fn : Z) (fw : firmware) : sound fw -> sound (set_function fn fw).
Proof. apply sound_ext; reflexivity. Qed.

Lemma sound_set_eeprom (e : Z -> Z) (fw : firmware) : sound fw -> sound (set_eeprom e fw).
Proof. apply sound_ext; reflexivity. Qed.

Lemma sound_save (fw : firmware) : sound fw -> sound (snd (currentSettings_save fw)).
Proof. unfold currentSettings_save. cbn [snd]. apply sound_set_eeprom. Qed.

Lemma sound_show_cursor (fw : firmware) : sound fw -> sound (show_cursor fw).
Proof. unfold show_cursor. apply sound_set_lcd. Qed.

(** Whatever the buttons do, a firmware started on its defaults keeps the
    frequency on the stepping grid, the divider in step with it, the test
    pattern flag 0 or 1 and the standard within 0..3. *)
Lemma operated_sound (fw : firmware) : operated fw -> sound fw.
Proof.
  induction 1 as [e held H | ev fw O IH | b ev fw O IH].
  - unfold setup. apply sound_writeConfig.
    destruct held.
    + apply sound_set_lcd, sound_set_lcd, sound_power_on.
    + destruct H as [H | H]; [discriminate |].
      match goal with |- sound (snd (currentSettings_load ?x)) =>
        destruct (load_verdict x) as [[V _] | [_ A]];
          [ rewrite (load_verdict_eeprom x (power_on e) eq_refl) in V;
            rewrite V in H; discriminate
          | rewrite A ]
      end.
      apply sound_set_lcd, sound_power_on.
  - destruct ev; try exact IH; unfold handleFEvent; apply sound_show_cursor.
    + repeat match goal with
      | |- context [if ?c then _ else _] => destruct c
      end; now apply sound_set_function.
    + destruct (function fw =? fnIdle); [now apply sound_set_function |].
      apply sound_writeConfig, sound_set_lcd, sound_save.
      now apply sound_set_function.
  - destruct ev; try exact IH; destruct b; try exact IH; unfold handleUDEvent;
      repeat match goal with
      | |- context [if ?c then _ else _] => destruct c
      end;
      try exact IH; apply sound_writeConfig;
      first [ now apply sound_incrementFrequency
            | now apply sound_decrementFrequency
            | now apply sound_set_standard
            | now apply sound_toggle ].
Qed.

(** X10: in operation after a start on the defaults the frame is the one
    of the register layout as it stands: the test pattern flag enters FM
    unmasked, the divisor exponent is the one of the band of the frequency
    and the frequency word is the exact quotient. *)
Lemma operated_frame (fw : firmware) :
  operated fw ->
  let s := currentSettings fw in
  let X := frequencyDivisor (setFrequencyDivider fw) in
  let bits := 2 ^ X * frequencyTimes100 s / 25 in
  wire (writeConfig fw) =
    wire fw ++
    [mkTransmission 0x65
       [ frame_C1 0 0 X 0;
         frame_C0 0 0 0 (standard s) 0 X;
         frame_FM (testPatternEnable s) bits;
         frame_FL bits X ]].
Proof.
  intros O s X bits. destruct (operated_sound fw O) as (G & Y & T & R).
  destruct (frequency_word_of_grid fw G Y) as (_ & _ & _ & _ & B & _).
  destruct (writeConfig_effect fw) as (W & _).
  rewrite W. unfold in_sync in Y. fold X in Y. rewrite <- Y.
  fold (frequency_of fw) in bits. rewrite <- Y in B. fold X bits in B. rewrite B.
  rewrite byteC1_value, byteC0_value, byteFL_value.
  rewrite byteFM_value by (rewrite <- B; apply frequencyBits_range).
  rewrite frame_C1_value, frame_C0_value, frame_FL_value, frame_FM_value.
  fold s. replace (testPatternEnable s mod 2) with (testPatternEnable s)
    by (fold s in T; lia).
  reflexivity.
Qed.

(** * Properties of the handlers and of start-up *)

(** ** The up and down buttons *)

Lemma handleUDEvent_standard (fw : firmware) (ev : eventType) :
  function fw = fnStandard ->
  ev = kEventPressed \/ ev = kEventRepeatPressed ->
  handleUDEvent buttonUPin ev fw =
    writeConfig (set_standard (uint8_t (Z.land (standard (currentSettings fw) + 1) 3)) fw) /\
  handleUDEvent buttonDPin ev fw =
    writeConfig (set_standard (uint8_t (Z.land (standard (currentSettings fw) - 1) 3)) fw).
Proof.
  intros F [E | E]; subst ev; unfold handleUDEvent; rewrite F; split; reflexivity.
Qed.

Lemma handleUDEvent_testPattern (fw : firmware) (b : pin) (ev : eventType) :
  function fw = fnTestPattern ->
  ev = kEventPressed \/ ev = kEventRepeatPressed ->
  b = buttonUPin \/ b = buttonDPin ->
  handleUDEvent b ev fw =
    writeConfig
      (set_testPatternEnable
         (uint8_t (Z.lxor (testPatternEnable (currentSettings fw)) 1)) fw).
Proof.
  intros F [E | E] [B | B]; subst ev b; unfold handleUDEvent; rewrite F; reflexivity.
Qed.

Lemma handleUDEvent_channel (fw : firmware) (ev : eventType) :
  function fw = fnChannel ->
  ev = kEventPressed \/ ev = kEventRepeatPressed ->
  handleUDEvent buttonUPin ev fw = writeConfig (incrementFrequency fw) /\
  handleUDEvent buttonDPin ev fw = writeConfig (decrementFrequency fw).
Proof.
  intros F [E | E]; subst ev; unfold handleUDEvent; rewrite F; split; reflexivity.
Qed.

(** What every up or down event leaves alone, and the only way it extends
    the I2C log. *)
Lemma handleUDEvent_keeps (b : pin) (ev : eventType) (fw : firmware) :
  eeprom (handleUDEvent b ev fw) = eeprom fw /\
  function (handleUDEvent b ev fw) = function fw /\
  (handleUDEvent b ev fw = fw \/
   wire (handleUDEvent b ev fw) = wire fw ++ [frame_of (handleUDEvent b ev fw)]).
Proof.
  assert (W : forall x, eeprom x = eeprom fw -> function x = function fw ->
                        wire x = wire fw ->
            eeprom (writeConfig x) = eeprom fw /\
            function (writeConfig x) = function fw /\
            (writeConfig x = fw \/
             wire (writeConfig x) = wire fw ++ [frame_of (writeConfig x)])).
  { intros x E F Wx. destruct (writeConfig_effect x) as (W1 & W2 & W3 & W4 & W5).
    rewrite W5, W4, E, F. split; [reflexivity |]. split; [reflexivity |].
    right. rewrite W1, Wx. unfold frame_of, frequencyBits, frequencyDivisorPow, frequency_of.
    rewrite W2, W3. reflexivity. }
  destruct (incrementFrequency_keeps fw) as (_ & _ & I1 & I2 & I3).
  destruct (decrementFrequency_keeps fw) as (_ & _ & D1 & D2 & D3).
  unfold handleUDEvent.
  destruct ev; try (repeat split; left; reflexivity);
    destruct b; try (repeat split; left; reflexivity);
    repeat match goal with
    | |- context [if ?c then _ else _] => destruct c
    end;
    try (repeat split; left; reflexivity);
    apply W; assumption || reflexivity.
Qed.

Lemma standard_up (fw : firmware) (ev : eventType) :
  function fw = fnStandard ->
  ev = kEventPressed \/ ev = kEventRepeatPressed ->
  currentSettings (handleUDEvent buttonUPin ev fw) =
    mkSettings (testPatternEnable (currentSettings fw))
               ((standard (currentSettings fw) + 1) mod 4)
               (frequencyTimes100 (currentSettings fw)) /\
  function (handleUDEvent buttonUPin ev fw) = fnStandard.
Proof.
  intros F E. destruct (handleUDEvent_standard fw ev F E) as [U _]. rewrite U.
  match goal with |- context [writeConfig ?x] =>
    destruct (writeConfig_effect x) as (_ & S & _ & Fn & _) end.
  rewrite S, Fn. split; [| exact F].
  cbn [currentSettings set_standard set_currentSettings].
  rewrite land_3. unfold uint8_t. f_equal. lia.
Qed.

Lemma standard_down (fw : firmware) (ev : eventType) :
  function fw = fnStandard ->
  ev = kEventPressed \/ ev = kEventRepeatPressed ->
  currentSettings (handleUDEvent buttonDPin ev fw) =
    mkSettings (testPatternEnable (currentSettings fw))
               ((standard (currentSettings fw) - 1) mod 4)
               (frequencyTimes100 (currentSettings fw)) /\
  function (handleUDEvent buttonDPin ev fw) = fnStandard.
Proof.
  intros F E. destruct (handleUDEvent_standard fw ev F E) as [_ D]. rewrite D.
  match goal with |- context [writeConfig ?x] =>
    destruct (writeConfig_effect x) as (_ & S & _ & Fn & _) end.
  rewrite S, Fn. split; [| exact F].
  cbn [currentSettings set_standard set_currentSettings].
  rewrite land_3. unfold uint8_t. f_equal. lia.
Qed.

(** X1: while the standard is being edited, an up event (pressed or
    repeated) replaces it by its successor modulo 4 and a down event by its
    predecessor modulo 4, whatever byte was stored, and changes no other
    setting.  On a standard within 0..3 up and down undo each other and
    four steps in one direction come back to the start. *)
Theorem standard_stepping (fw : firmware) (ev : eventType) :
  function fw = fnStandard ->
  ev = kEventPressed \/ ev = kEventRepeatPressed ->
  let up := handleUDEvent buttonUPin ev in
  let down := handleUDEvent buttonDPin ev in
  let s := currentSettings fw in
  currentSettings (up fw) =
    mkSettings (testPatternEnable s) ((standard s + 1) mod 4) (frequencyTimes100 s) /\
  currentSettings (down fw) =
    mkSettings (testPatternEnable s) ((standard s - 1) mod 4) (frequencyTimes100 s) /\
  (0 <= standard s <= 3 ->
   currentSettings (down (up fw)) = s /\
   currentSettings (up (down fw)) = s /\
   currentSettings (up (up (up (up fw)))) = s /\
   currentSettings (down (down (down (down fw)))) = s).
Proof.
  intros F E up down s. subst up down s.
  destruct (standard_up fw ev F E) as [U1 FU1].
  destruct (standard_down fw ev F E) as [D1 FD1].
  split; [exact U1 |]. split; [exact D1 |]. intros R.
  destruct (standard_down _ ev FU1 E) as [DU _].
  destruct (standard_up _ ev FD1 E) as [UD _].
  destruct (standard_up _ ev FU1 E) as [U2 FU2].
  destruct (standard_up _ ev FU2 E) as [U3 FU3].
  destruct (standard_up _ ev FU3 E) as [U4 _].
  destruct (standard_down _ ev FD1 E) as [D2 FD2].
  destruct (standard_down _ ev FD2 E) as [D3 FD3].
  destruct (standard_down _ ev FD3 E) as [D4 _].
  rewrite U3, U2, U1 in U4. rewrite D3, D2, D1 in D4.
  rewrite U1 in DU. rewrite D1 in UD.
  cbn [testPatternEnable standard frequencyTimes100] in DU, UD, U4, D4.
  repeat split.
  - rewrite DU. apply settings_ext; cbn; try reflexivity. lia.
  - rewrite UD. apply settings_ext; cbn; try reflexivity. lia.
  - rewrite U4. apply settings_ext; cbn; try reflexivity. lia.
  - rewrite D4. apply settings_ext; cbn; try reflexivity. lia.
Qed.

Lemma standard_stepping_witness :
  let fw := set_function fnStandard (power_on erased) in
  standard (currentSettings (handleUDEvent buttonUPin kEventPressed fw)) = 3 /\
  standard (currentSettings
    (handleUDEvent buttonUPin kEventPressed
       (handleUDEvent buttonUPin kEventPressed fw))) = 0.
Proof.
  intros fw.
  destruct (standard_stepping fw kEventPressed eq_refl (or_introl eq_refl)) as (U & _ & _).
  destruct (standard_stepping (handleUDEvent buttonUPin kEventPressed fw) kEventPressed)
    as (U2 & _ & _); [vm_compute; reflexivity | left; reflexivity |].
  split; [rewrite U; reflexivity | rewrite U2, U; reflexivity].
Defined.

Lemma lxor_1 (t : Z) : Z.lxor t 1 = t + 1 - 2 * (t mod 2).
Proof. pose proof (Z.add_lxor_2land t 1) as H. rewrite land_1 in H. lia. Qed.

Lemma toggle_settings (fw : firmware) (b : pin) (ev : eventType) :
  function fw = fnTestPattern ->
  ev = kEventPressed \/ ev = kEventRepeatPressed ->
  b = buttonUPin \/ b = buttonDPin ->
  currentSettings (handleUDEvent b ev fw) =
    mkSettings (uint8_t (Z.lxor (testPatternEnable (currentSettings fw)) 1))
               (standard (currentSettings fw))
               (frequencyTimes100 (currentSettings fw)) /\
  function (handleUDEvent b ev fw) = fnTestPattern.
Proof.
  intros F E B. rewrite (handleUDEvent_testPattern fw b ev F E B).
  match goal with |- context [writeConfig ?x] =>
    destruct (writeConfig_effect x) as (_ & S & _ & Fn & _) end.
  rewrite S, Fn. split; [reflexivity | exact F].
Qed.

(** X2: while the test pattern flag is being edited, the up and the down
    button do the same thing: they flip bit 0 of the flag byte and change
    nothing else.  A flag of 0 becomes 1 and a flag of 1 becomes 0, and two
    presses of either button restore any flag byte. *)
Theorem test_pattern_toggle (fw : firmware) (ev : eventType) :
  function fw = fnTestPattern ->
  ev = kEventPressed \/ ev = kEventRepeatPressed ->
  let up := handleUDEvent buttonUPin ev in
  let down := handleUDEvent buttonDPin ev in
  let s := currentSettings fw in
  up fw = down fw /\
  standard (currentSettings (up fw)) = standard s /\
  frequencyTimes100 (currentSettings (up fw)) = frequencyTimes100 s /\
  (0 <= testPatternEnable s < 256 ->
   testPatternEnable (currentSettings (up fw)) =
     testPatternEnable s + 1 - 2 * (testPatternEnable s mod 2) /\
   currentSettings (up (up fw)) = s /\
   currentSettings (down (up fw)) = s).
Proof.
  intros F E up down s. subst up down s.
  destruct (toggle_settings fw buttonUPin ev F E (or_introl eq_refl)) as [U FU].
  split.
  { rewrite (handleUDEvent_testPattern fw buttonUPin ev F E (or_introl eq_refl)).
    rewrite (handleUDEvent_testPattern fw buttonDPin ev F E (or_intror eq_refl)).
    reflexivity. }
  split; [rewrite U; reflexivity |]. split; [rewrite U; reflexivity |].
  intros R.
  set (t := testPatternEnable (currentSettings fw)) in *.
  assert (T : uint8_t (Z.lxor t 1) = t + 1 - 2 * (t mod 2))
    by (rewrite lxor_1; unfold uint8_t; rewrite Z.mod_small; lia).
  destruct (toggle_settings _ buttonUPin ev FU E (or_introl eq_refl)) as [UU _].
  destruct (toggle_settings _ buttonDPin ev FU E (or_intror eq_refl)) as [DU _].
  rewrite U in UU, DU.
  cbn [testPatternEnable standard frequencyTimes100] in UU, DU.
  assert (T2 : uint8_t (Z.lxor (uint8_t (Z.lxor t 1)) 1) = t)
    by (rewrite T, lxor_1; unfold uint8_t; rewrite Z.mod_small; lia).
  rewrite T2 in UU, DU.
  split; [rewrite U; exact T |].
  split; [rewrite UU | rewrite DU]; apply settings_ext; reflexivity.
Qed.

Lemma test_pattern_toggle_witness :
  let fw := set_function fnTestPattern (power_on erased) in
  handleUDEvent buttonUPin kEventPressed fw = handleUDEvent buttonDPin kEventPressed fw /\
  testPatternEnable (currentSettings (handleUDEvent buttonUPin kEventPressed fw)) = 0.
Proof.
  intros fw.
  destruct (test_pattern_toggle fw kEventPressed eq_refl (or_introl eq_refl))
    as (S & _ & _ & T).
  split; [exact S |]. destruct T as (T & _); [cbn; lia | rewrite T; reflexivity].
Defined.

(** X3: an up or down event never writes the EEPROM and never changes the
    function being edited.  It either leaves the whole state as it is or
    appends exactly one frame to the I2C log, the frame of the settings as
    they are after the event.  In the idle state, for the function button's
    pin and for every event type other than pressed and repeat-pressed the
    state is left as it is. *)
Theorem up_down_effects (b : pin) (ev : eventType) (fw : firmware) :
  eeprom (handleUDEvent b ev fw) = eeprom fw /\
  function (handleUDEvent b ev fw) = function fw /\
  (handleUDEvent b ev fw = fw \/
   wire (handleUDEvent b ev fw) = wire fw ++ [frame_of (handleUDEvent b ev fw)]) /\
  (function fw = fnIdle -> handleUDEvent b ev fw = fw) /\
  (b = buttonFPin -> handleUDEvent b ev fw = fw) /\
  (ev <> kEventPressed -> ev <> kEventRepeatPressed -> handleUDEvent b ev fw = fw) /\
  handleUDEvent b kEventRepeatPressed fw = handleUDEvent b kEventPressed fw.
Proof.
  destruct (handleUDEvent_keeps b ev fw) as (E & F & W).
  split; [exact E |]. split; [exact F |]. split; [exact W |].
  split; [| split; [| split]].
  - intros I. unfold handleUDEvent. rewrite I. destruct ev, b; reflexivity.
  - intros B. subst b. destruct ev; reflexivity.
  - intros P R. destruct ev; congruence || reflexivity.
  - reflexivity.
Qed.

Lemma up_down_effects_witness :
  handleUDEvent buttonUPin kEventPressed (power_on erased) = power_on erased /\
  handleUDEvent buttonUPin kEventClicked (set_function fnChannel (power_on erased)) =
    set_function fnChannel (power_on erased).
Proof.
  destruct (up_down_effects buttonUPin kEventPressed (power_on erased))
    as (_ & _ & _ & I & _).
  destruct (up_down_effects buttonUPin kEventClicked
              (set_function fnChannel (power_on erased)))
    as (_ & _ & _ & _ & _ & O & _).
  split; [apply I; reflexivity | apply O; discriminate].
Defined.

(** ** The function button *)

Lemma released_keeps (fw : firmware) :
  1 <= function (handleFEvent kEventReleased fw) <= 3 /\
  currentSettings (handleFEvent kEventReleased fw) = currentSettings fw /\
  frequencyDivisor (handleFEvent kEventReleased fw) = frequencyDivisor fw /\
  eeprom (handleFEvent kEventReleased fw) = eeprom fw /\
  wire (handleFEvent kEventReleased fw) = wire fw.
Proof.
  unfold handleFEvent, show_cursor, fnChannel, fnStandard, fnTestPattern.
  split_tests; cbn; repeat split; lia.
Qed.

(** X4: a released event of the function button moves from channel to
    standard, from standard to test pattern and from test pattern back to
    channel, with the cursor on columns 14, 15 and 2.  It changes neither
    the settings, the divider, the EEPROM, the I2C log nor the text on the
    display, it never selects the idle state, and three of them in a row
    come back to the function they started from. *)
Theorem mode_cycle (fw : firmware) :
  let released := handleFEvent kEventReleased in
  (function fw = fnChannel ->
     function (released fw) = fnStandard /\ cursor (lcd (released fw)) = 14) /\
  (function fw = fnStandard ->
     function (released fw) = fnTestPattern /\ cursor (lcd (released fw)) = 15) /\
  (function fw = fnTestPattern ->
     function (released fw) = fnChannel /\ cursor (lcd (released fw)) = 2) /\
  (1 <= function (released fw) <= 3) /\
  (1 <= function fw <= 3 -> function (released (released (released fw))) = function fw) /\
  currentSettings (released fw) = currentSettings fw /\
  frequencyDivisor (released fw) = frequencyDivisor fw /\
  eeprom (released fw) = eeprom fw /\
  wire (released fw) = wire fw /\
  cells (lcd (released fw)) = cells (lcd fw).
Proof.
  intros released. subst released.
  destruct fw as [s d fn e l w]. cbn [function].
  split; [intros F; subst fn; split; reflexivity |].
  split; [intros F; subst fn; split; reflexivity |].
  split; [intros F; subst fn; split; reflexivity |].
  split.
  { unfold handleFEvent, show_cursor. cbn [function].
    unfold fnChannel, fnStandard, fnTestPattern. split_tests; cbn; lia. }
  split.
  { intros R.
    assert (C : fn = 1 \/ fn = 2 \/ fn = 3) by lia.
    destruct C as [C | [C | C]]; subst fn; reflexivity. }
  unfold handleFEvent, show_cursor. cbn [function].
  split_tests; repeat split.
Qed.

Lemma mode_cycle_witness :
  let fw := set_function fnStandard (power_on erased) in
  function (handleFEvent kEventReleased fw) = fnTestPattern /\
  function (handleFEvent kEventReleased
              (handleFEvent kEventReleased (handleFEvent kEventReleased fw))) = fnStandard.
Proof.
  intros fw. destruct (mode_cycle fw) as (_ & S & _ & _ & T & _).
  split; [apply S; reflexivity | apply T; unfold fw, fnStandard; cbn; lia].
Defined.

Lemma long_press_editing (fw : firmware) :
  function fw <> fnIdle ->
  handleFEvent kEventLongPressed fw =
    show_cursor
      (writeConfig
         (set_lcd (lcd_print (list_ascii_of_string "Config saved.   ")
                     (lcd_setCursor 0 (lcd fw)))
            (snd (currentSettings_save (set_function fnIdle fw))))).
Proof.
  intros N. unfold handleFEvent.
  destruct (Z.eqb_spec (function fw) fnIdle) as [E | _]; [contradiction | reflexivity].
Qed.

Lemma long_press_keeps (fw : firmware) :
  function fw <> fnIdle ->
  let fw' := handleFEvent kEventLongPressed fw in
  function fw' = fnIdle /\
  currentSettings fw' = currentSettings fw /\
  frequencyDivisor fw' = frequencyDivisor fw /\
  eeprom fw' = eeprom (snd (currentSettings_save (set_function fnIdle fw))) /\
  wire fw' = wire fw ++ [frame_of fw] /\
  cursor (lcd fw') = 16.
Proof.
  intros N fw'. subst fw'. rewrite (long_press_editing fw N).
  match goal with |- context [writeConfig ?x] =>
    destruct (writeConfig_effect x) as (W & S & D & F & E); set (y := writeConfig x) in *
  end.
  unfold show_cursor. cbn [function currentSettings frequencyDivisor eeprom wire lcd set_lcd].
  rewrite F, S, D, E, W. cbn [function currentSettings frequencyDivisor eeprom wire lcd set_lcd
    set_function set_eeprom currentSettings_save snd lcd_setCursor cursor].
  repeat split.
Qed.

Lemma setup_start (held : bool) (e : Z -> Z) :
  let before :=
    if held then
      set_lcd (lcd_print (list_ascii_of_string "Config not read.")
                 (lcd_setCursor 0 (mkLcd (repeat (chr " ") 16) 0)))
        (set_lcd (mkLcd (repeat (chr " ") 16) 0) (power_on e))
    else snd (currentSettings_load (set_lcd (mkLcd (repeat (chr " ") 16) 0) (power_on e))) in
  setup held (power_on e) = writeConfig before /\
  eeprom before = e /\
  function before = fnIdle /\
  frequencyDivisor before = 0 /\
  wire before = [] /\
  List.length (cells (lcd before)) = 16%nat /\
  (held = true -> currentSettings before = default_settings) /\
  (held = false -> fst (currentSettings_load (power_on e)) = 1 ->
     currentSettings before = default_settings) /\
  (held = false -> fst (currentSettings_load (power_on e)) = 0 ->
     currentSettings before = settings_of_bytes (eeprom_read_block 2 6 e)).
Proof.
  intros before. subst before. destruct held.
  - repeat split; try reflexivity; discriminate.
  - set (x := set_lcd (mkLcd (repeat (chr " ") 16) 0) (power_on e)).
    pose proof (load_verdict_eeprom x (power_on e) eq_refl) as V.
    split; [reflexivity |].
    destruct (load_verdict x) as [[V0 A] | [V1 A]]; rewrite A; rewrite <- V.
    + repeat split; try reflexivity; try discriminate.
      rewrite V0. discriminate.
    + repeat split; try reflexivity; try discriminate.
      rewrite V1. discriminate.
Qed.

Lemma setup_facts (held : bool) (e : Z -> Z) :
  let fw := setup held (power_on e) in
  eeprom fw = e /\
  function fw = fnIdle /\
  frequencyDivisor fw = 0 /\
  wire fw = [frame_of fw] /\
  (held = true -> currentSettings fw = default_settings) /\
  (held = false -> fst (currentSettings_load (power_on e)) = 1 ->
     currentSettings fw = default_settings) /\
  (held = false -> fst (currentSettings_load (power_on e)) = 0 ->
     currentSettings fw = settings_of_bytes (eeprom_read_block 2 6 e)).
Proof.
  intros fw. subst fw.
  destruct (setup_start held e) as (U & E & F & D & W & _ & H1 & H2 & H3).
  rewrite U.
  match goal with |- context [writeConfig ?x] =>
    destruct (writeConfig_effect x) as (W1 & W2 & W3 & W4 & W5);
    set (y := writeConfig x) in *; set (b := x) in *
  end.
  rewrite W5, W4, W3, W2, W1, E, F, D, W.
  repeat split; try assumption.
  unfold frame_of, frequencyBits, frequencyDivisorPow. rewrite W2, W3, D. reflexivity.
Qed.

(** X6: [setup] never writes the EEPROM, ends in the idle state with the
    divider at 0 and the cursor parked on column 16, and sends exactly one
    frame, the one of the settings it ends with; the start-up message is
    overwritten by the settings line.  Every cell but the one of the
    standard is the one of the settings line whatever the EEPROM holds; the
    cell of the standard is the letter [standards[standard]] when the
    standard is within 0..3, as it is for the defaults.  The settings are
    the built-in defaults when the function button is held or the stored
    block is rejected, and the stored ones when the block is accepted. *)
Theorem setup_outcome (held : bool) (e : Z -> Z) :
  let fw := setup held (power_on e) in
  let s := currentSettings fw in
  let text := map uint8_t (display_text fw (standard s) (testPatternEnable s)
                             (frequency_of fw)) in
  eeprom fw = e /\
  function fw = fnIdle /\
  frequencyDivisor fw = 0 /\
  wire fw = [frame_of fw] /\
  cursor (lcd fw) = 16 /\
  List.length (cells (lcd fw)) = 16%nat /\
  (forall i : nat, i <> 14%nat -> nth i (cells (lcd fw)) 0 = nth i text 0) /\
  (0 <= standard s <= 3 -> cells (lcd fw) = text) /\
  (held = true -> s = default_settings) /\
  (held = false -> fst (currentSettings_load (power_on e)) = 1 ->
     s = default_settings) /\
  (held = false -> fst (currentSettings_load (power_on e)) = 0 ->
     s = settings_of_bytes (eeprom_read_block 2 6 e)).
Proof.
  intros fw s text.
  destruct (setup_facts held e) as (E & F & D & W & H1 & H2 & H3).
  fold fw in E, F, D, W, H1, H2, H3. fold s in H1, H2, H3.
  do 4 (split; [assumption |]).
  assert (C : cursor (lcd fw) = 16 /\
              List.length (cells (lcd fw)) = 16%nat /\
              (forall i : nat, i <> 14%nat -> nth i (cells (lcd fw)) 0 = nth i text 0) /\
              (0 <= standard s <= 3 -> cells (lcd fw) = text)).
  { subst text s fw. destruct (setup_start held e) as (U & _ & Fb & _ & _ & L & _).
    rewrite U.
    match goal with |- context [writeConfig ?x] =>
      destruct (writeConfig_effect x) as (_ & W2 & W3 & _);
      destruct (writeConfig_display x L) as (C1 & C2 & C3 & C4);
      set (y := writeConfig x) in *; set (b := x) in *
    end.
    assert (Fr : 0 <= function b <= 3) by (rewrite Fb; unfold fnIdle; lia).
    unfold frequency_of. rewrite W2, (display_text_ext b y _ _ _ W3), (C4 Fr), Fb.
    split; [reflexivity |]. split; [exact C1 |]. split; [exact C2 | exact C3]. }
  destruct C as (C1 & C2 & C3 & C4).
  split; [exact C1 |]. split; [exact C2 |]. split; [exact C3 |]. split; [exact C4 |].
  repeat split; assumption.
Qed.

Lemma setup_outcome_witness :
  currentSettings (setup true (power_on erased)) = default_settings /\
  currentSettings (setup false (power_on erased)) = default_settings /\
  cells (lcd (setup true (power_on erased))) =
    map chr (list_ascii_of_string "C21  471.25 1 IT").
Proof.
  destruct (setup_outcome true erased) as (_ & _ & _ & _ & _ & _ & _ & C & H & _).
  destruct (setup_outcome false erased) as (_ & _ & _ & _ & _ & _ & _ & _ & _ & R & _).
  split; [apply H; reflexivity |].
  split; [apply R; [reflexivity | vm_compute; reflexivity] |].
  rewrite C; [vm_compute; reflexivity | vm_compute; split; discriminate].
Defined.

(** X5: a long press of the function button while a field is being edited
    goes back to the idle state, keeps the settings, sends one frame and
    saves: the block left in the EEPROM is accepted by a load, and a restart
    from that EEPROM without the button held comes up with the settings
    that were in force at the long press, while a restart with the button
    held comes up with the defaults. *)
Theorem long_press_saves (fw : firmware) :
  let s := currentSettings fw in
  function fw <> fnIdle ->
  0 <= testPatternEnable s < 2 ^ 8 ->
  0 <= standard s < 2 ^ 8 ->
  0 <= frequencyTimes100 s < 2 ^ 32 ->
  let fw' := handleFEvent kEventLongPressed fw in
  function fw' = fnIdle /\
  currentSettings fw' = s /\
  frequencyDivisor fw' = frequencyDivisor fw /\
  wire fw' = wire fw ++ [frame_of fw] /\
  cursor (lcd fw') = 16 /\
  fst (currentSettings_load fw') = 0 /\
  currentSettings (setup false (power_on (eeprom fw'))) = s /\
  currentSettings (setup true (power_on (eeprom fw'))) = default_settings.
Proof.
  intros s N T S F fw'.
  destruct (long_press_keeps fw N) as (K1 & K2 & K3 & K4 & K5 & K6).
  fold fw' in K1, K2, K3, K4, K5, K6.
  assert (L : forall x, eeprom x = eeprom fw' ->
            fst (currentSettings_load x) = 0 /\
            currentSettings (snd (currentSettings_load x)) = s).
  { intros x E. rewrite K4 in E.
    apply (load_after_save (set_function fnIdle fw) x); assumption. }
  split; [exact K1 |]. split; [exact K2 |]. split; [exact K3 |].
  split; [exact K5 |]. split; [exact K6 |].
  split; [apply (L fw' eq_refl) |].
  destruct (setup_facts false (eeprom fw')) as (_ & _ & _ & _ & _ & _ & A).
  destruct (setup_facts true (eeprom fw')) as (_ & _ & _ & _ & H & _).
  split; [| apply H; reflexivity].
  destruct (L (power_on (eeprom fw')) eq_refl) as [V R].
  rewrite (A eq_refl V).
  destruct (load_verdict (power_on (eeprom fw'))) as [[_ B] | [B _]].
  - rewrite B in R. exact R.
  - rewrite V in B. discriminate.
Qed.

Lemma long_press_saves_witness :
  let fw := handleUDEvent buttonUPin kEventPressed
              (set_function fnChannel (power_on erased)) in
  currentSettings (setup false (power_on (eeprom (handleFEvent kEventLongPressed fw)))) =
    mkSettings 1 2 47925.
Proof.
  intros fw.
  destruct (long_press_saves fw) as (_ & _ & _ & _ & _ & _ & R & _);
    [vm_compute; discriminate | vm_compute; split; discriminate || reflexivity
    | vm_compute; split; discriminate || reflexivity
    | vm_compute; split; discriminate || reflexivity |].
  rewrite R. vm_compute. reflexivity.
Defined.

(** X7: [setup] does not refresh the divider: whatever frequency it comes
    up with, [frequencyDivisor] is 0 and the frame it sends carries divisor
    exponent 0 and the frequency word of the undivided frequency.  That is
    the divider of the band only above 423.25 MHz; for a saved frequency at
    or below it the divider stays out of step until the first channel step,
    after which it is the one of the band again. *)
Theorem setup_divider (held : bool) (e : Z -> Z) :
  let fw := setup held (power_on e) in
  let f := frequency_of fw in
  frequencyDivisor fw = 0 /\
  wire fw =
    [mkTransmission 0x65
       [ 128;
         byteC0 0 0 0 (standard (currentSettings fw)) 0 0;
         byteFM (testPatternEnable (currentSettings fw)) (uint16_t (uint32_t f / 25));
         byteFL (uint16_t (uint32_t f / 25)) 0 ]] /\
  (42325 < f -> in_sync fw) /\
  (f <= 42325 -> ~ in_sync fw) /\
  in_sync (handleUDEvent buttonUPin kEventPressed (set_function fnChannel fw)) /\
  in_sync (handleUDEvent buttonDPin kEventPressed (set_function fnChannel fw)).
Proof.
  intros fw f.
  destruct (setup_facts held e) as (_ & _ & D & W & _).
  fold fw in D, W.
  split; [exact D |]. split.
  { rewrite W. unfold frame_of, frequencyBits, frequencyDivisorPow. rewrite D.
    change (Z.shiftl 1 0) with 1. change (uint32_t 1) with 1.
    rewrite Z.mul_1_l. reflexivity. }
  destruct (setFrequencyDivider_divisor fw) as (B0 & B1 & B2 & B3 & B4).
  fold f in B0, B1, B2, B3, B4. unfold in_sync. rewrite D.
  split; [intros R; apply B0; exact R |]. split.
  { intros R Y.
    assert (C : 21025 < f <= 42325 \/ 10525 < f <= 21025 \/ 4125 <= f <= 10525 \/ f < 4125)
      by lia.
    destruct C as [C | [C | [C | C]]];
      [ rewrite (B1 C) in Y | rewrite (B2 C) in Y
      | rewrite (B3 C) in Y | rewrite (B4 C) in Y ]; discriminate. }
  split.
  - apply (in_sync_ext (incrementFrequency (set_function fnChannel fw)));
      [reflexivity | reflexivity | apply in_sync_incrementFrequency].
  - apply (in_sync_ext (decrementFrequency (set_function fnChannel fw)));
      [reflexivity | reflexivity | apply in_sync_decrementFrequency].
Qed.

Lemma setup_divider_witness :
  let saved := snd (currentSettings_save
                      (setFrequencyDivider (set_frequencyTimes100 21025 (power_on erased)))) in
  ~ in_sync (setup false (power_on (eeprom saved))).
Proof.
  intros saved.
  destruct (setup_divider false (eeprom saved)) as (_ & _ & _ & N & _).
  apply N. vm_compute. discriminate.
Defined.

(** ** The firmware in operation, continued *)

Lemma frame_of_ext (fw fw' : firmware) :
  currentSettings fw' = currentSettings fw ->
  frequencyDivisor fw' = frequencyDivisor fw ->
  frame_of fw' = frame_of fw.
Proof.
  intros S D. unfold frame_of, frequencyBits, frequencyDivisorPow. rewrite S, D. reflexivity.
Qed.

Lemma frame_of_well_formed (fw : firmware) : well_formed (frame_of fw).
Proof.
  unfold well_formed, frame_of. cbn [address payload List.length].
  split; [reflexivity |]. split; [reflexivity |].
  unfold byteC1, byteC0, byteFM, byteFL, is_byte.
  repeat apply Forall_cons; try apply Forall_nil;
    match goal with |- 0 <= uint8_t ?x < 256 => apply (Z.mod_pos_bound x 256) end; lia.
Qed.

Lemma handleFEvent_cases (ev : eventType) (fw : firmware) :
  (currentSettings (handleFEvent ev fw) = currentSettings fw /\
   frequencyDivisor (handleFEvent ev fw) = frequencyDivisor fw /\
   1 <= function (handleFEvent ev fw) <= 3 /\
   eeprom (handleFEvent ev fw) = eeprom fw /\
   wire (handleFEvent ev fw) = wire fw) \/
  (currentSettings (handleFEvent ev fw) = currentSettings fw /\
   frequencyDivisor (handleFEvent ev fw) = frequencyDivisor fw /\
   function (handleFEvent ev fw) = fnIdle /\
   eeprom (handleFEvent ev fw) = eeprom (snd (currentSettings_save (set_function fnIdle fw))) /\
   wire (handleFEvent ev fw) = wire fw ++ [frame_of fw]) \/
  handleFEvent ev fw = fw.
Proof.
  destruct ev; try (right; right; reflexivity).
  - left. destruct (released_keeps fw) as (R & S & D & E & W).
    repeat split; assumption || apply R.
  - destruct (Z.eq_dec (function fw) fnIdle) as [I | N].
    + left. unfold handleFEvent. rewrite I.
      change (fnIdle =? fnIdle) with true. cbv iota. unfold show_cursor.
      cbn [function currentSettings frequencyDivisor eeprom wire set_lcd set_function].
      unfold fnChannel. repeat split; lia.
    + right; left. destruct (long_press_keeps fw N) as (K1 & K2 & K3 & K4 & K5 & _).
      repeat split; assumption.
Qed.

Lemma running_function (fw : firmware) : running fw -> 0 <= function fw <= 3.
Proof.
  induction 1 as [e held | ev fw R IH | b ev fw R IH].
  - destruct (setup_facts held e) as (_ & F & _). rewrite F. unfold fnIdle. lia.
  - destruct (handleFEvent_cases ev fw) as [(_ & _ & F & _) | [(_ & _ & F & _) | U]].
    + lia.
    + rewrite F. unfold fnIdle. lia.
    + rewrite U. exact IH.
  - destruct (handleUDEvent_keeps b ev fw) as (_ & F & _). rewrite F. exact IH.
Qed.

Lemma operated_running (fw : firmware) : operated fw -> running fw.
Proof.
  induction 1; [apply running_setup | now apply running_F | now apply running_UD].
Qed.

(** X8: whatever the buttons do after a start on the defaults, the
    frequency stays one of the channel frequencies between 41.25 and
    1023.25 MHz, the divider is the one of its band (exponent 0..3, so the
    shift in [frequencyDivisorPow] stays within an [int] and the divisor
    shown is a single digit), the test pattern flag is 0 or 1, and the
    standard and the function stay within 0..3, so that the reads of
    [standards] and [fnCursorPositions] stay inside the arrays. *)
Theorem operation_invariant (fw : firmware) :
  operated fw ->
  on_grid (frequency_of fw) /\
  4125 <= frequency_of fw <= 102325 /\
  frequencyDivisor fw = frequencyDivisor (setFrequencyDivider fw) /\
  0 <= frequencyDivisor fw <= 3 /\
  In (frequencyDivisorPow fw) [1; 2; 4; 8] /\
  (testPatternEnable (currentSettings fw) = 0 \/
   testPatternEnable (currentSettings fw) = 1) /\
  0 <= standard (currentSettings fw) <= 3 /\
  In (nth (Z.to_nat (standard (currentSettings fw))) standards 0) standards /\
  0 <= function fw <= 3 /\
  In (nth (Z.to_nat (function fw)) fnCursorPositions 0) fnCursorPositions.
Proof.
  intros O. destruct (operated_sound fw O) as (G & Y & T & S).
  pose proof (running_function fw (operated_running fw O)) as F.
  destruct (grid_divisor fw G Y) as [[D R] | [[D R] | [[D R] | [D R]]]].
  all: split; [exact G |]; split; [unfold on_grid in G; lia |];
       split; [symmetry; exact Y |]; split; [lia |];
       split; [unfold frequencyDivisorPow; rewrite D; cbn; tauto |];
       split; [exact T |]; split; [exact S |];
       split; [apply nth_In; cbn; lia |]; split; [exact F |]; apply nth_In; cbn; lia.
Qed.

Lemma operation_invariant_witness :
  on_grid (frequency_of
    (handleUDEvent buttonDPin kEventPressed
       (handleFEvent kEventLongPressed (setup true (power_on erased))))).
Proof.
  apply operation_invariant.
  apply operated_UD, operated_F, operated_setup. left. reflexivity.
Defined.

(** X9: after [setup] and any sequence of button events, whatever the
    EEPROM held at power-on, the I2C log is not empty, every transaction
    in it is addressed to 0x65 and has four bytes, and the last one is the
    frame of the settings and divider as they stand: the chip has always
    been told the configuration in force. *)
Theorem chip_up_to_date (fw : firmware) :
  running fw ->
  (exists earlier, wire fw = earlier ++ [frame_of fw]) /\
  Forall well_formed (wire fw).
Proof.
  induction 1 as [e held | ev fw R [[w0 L] A] | b ev fw R [[w0 L] A]].
  - destruct (setup_facts held e) as (_ & _ & _ & W & _). rewrite W.
    split; [exists []; reflexivity |].
    apply Forall_cons; [apply frame_of_well_formed | apply Forall_nil].
  - destruct (handleFEvent_cases ev fw)
      as [(S & D & _ & _ & W) | [(S & D & _ & _ & W) | U]].
    + rewrite W, (frame_of_ext fw _ S D). split; [exists w0; exact L | exact A].
    + rewrite W, (frame_of_ext fw _ S D). split; [exists (wire fw); reflexivity |].
      apply Forall_app. split; [exact A |].
      apply Forall_cons; [apply frame_of_well_formed | apply Forall_nil].
    + rewrite U. split; [exists w0; exact L | exact A].
  - destruct (handleUDEvent_keeps b ev fw) as (_ & _ & [U | W]).
    + rewrite U. split; [exists w0; exact L | exact A].
    + rewrite W. split; [exists (wire fw); reflexivity |].
      apply Forall_app. split; [exact A |].
      apply Forall_cons; [apply frame_of_well_formed | apply Forall_nil].
Qed.

Lemma chip_up_to_date_witness :
  Forall well_formed
    (wire (handleUDEvent buttonUPin kEventPressed
             (handleFEvent kEventReleased (setup false (power_on erased))))).
Proof.
  apply chip_up_to_date. apply running_UD, running_F, running_setup.
Defined.

(** ** The channel raster *)

Lemma on_grid_channels (f : Z) : on_grid f <-> In f channels.
Proof.
  unfold on_grid, channels. rewrite !in_app_iff, !in_map_iff. split.
  - intros [[R M] | [[R M] | [R M]]].
    + left. exists (Z.to_nat ((f - 4125) / 700)). rewrite in_seq. split; lia.
    + right; left. exists (Z.to_nat ((f - 10525) / 700)). rewrite in_seq. split; lia.
    + right; right. exists (Z.to_nat ((f - 30325) / 800)). rewrite in_seq. split; lia.
  - intros [(k & E & I) | [(k & E & I) | (k & E & I)]]; rewrite in_seq in I.
    + left. lia.
    + right; left. lia.
    + right; right. lia.
Qed.

Lemma channel_up_frequency (fw : firmware) :
  frequency_of (incrementFrequency fw) = channel_up (frequency_of fw).
Proof.
  unfold channel_up, frequency_of, incrementFrequency.
  rewrite !setFrequencyDivider_settings.
  cbn [currentSettings frequencyTimes100 set_frequencyTimes100 set_currentSettings].
  split_tests; reflexivity.
Qed.

Lemma channel_down_frequency (fw : firmware) :
  frequency_of (decrementFrequency fw) = channel_down (frequency_of fw).
Proof.
  unfold channel_down, frequency_of, decrementFrequency.
  rewrite !setFrequencyDivider_settings.
  cbn [currentSettings frequencyTimes100 set_frequencyTimes100 set_currentSettings].
  split_tests; reflexivity.
Qed.

Lemma iter_up_frequency (n : nat) (fw : firmware) :
  frequency_of (Nat.iter n incrementFrequency fw) = Nat.iter n channel_up (frequency_of fw).
Proof.
  induction n as [| n IH]; [reflexivity |].
  rewrite !Nat.iter_succ, channel_up_frequency, IH. reflexivity.
Qed.

Lemma iter_down_frequency (n : nat) (fw : firmware) :
  frequency_of (Nat.iter n decrementFrequency fw) = Nat.iter n channel_down (frequency_of fw).
Proof.
  induction n as [| n IH]; [reflexivity |].
  rewrite !Nat.iter_succ, channel_down_frequency, IH. reflexivity.
Qed.

(** X11: the frequencies that channel steps reach from the default are
    exactly the 128 channel frequencies of the raster, no more and no
    fewer, and the raster has no frequency twice. *)
Theorem reachable_frequencies (f : Z) :
  ((exists fw, stepped fw /\ frequency_of fw = f) <-> In f channels) /\
  List.length channels = 128%nat /\
  NoDup channels.
Proof.
  split; [| split].
  - split.
    + intros (fw & S & E). subst f. apply on_grid_channels.
      apply (stepped_invariant fw S).
    + intros I. apply (on_grid_reached erased). apply on_grid_channels. exact I.
  - reflexivity.
  - assert (E : nodup Z.eq_dec channels = channels) by (vm_compute; reflexivity).
    rewrite <- E. apply NoDup_nodup.
Qed.

Lemma reachable_frequencies_witness : In 47925 channels.
Proof.
  apply (reachable_frequencies 47925).
  exists (incrementFrequency (power_on erased)).
  split; [apply stepped_up, stepped_power_on | reflexivity].
Defined.

Lemma comes_back_false (step : Z -> Z) (n : nat) (x g : Z) :
  comes_back step n x g = false ->
  forall k, (0 < k <= n)%nat -> Nat.iter k step x <> g.
Proof.
  revert x. induction n as [| n IH]; intros x H k R; [lia |].
  cbn [comes_back] in H. apply orb_false_elim in H. destruct H as [H1 H2].
  destruct k as [| k]; [lia |]. rewrite Nat.iter_succ_r.
  destruct k as [| k].
  - cbn. apply Z.eqb_neq. exact H1.
  - apply IH; [exact H2 | lia].
Qed.

(** X12: from 41.25 MHz successive steps up go through the raster in
    ascending order and successive steps down through it in descending
    order, the wrap closing the ring; from any channel 128 steps in one
    direction come back to it, and no smaller number of steps does. *)
Theorem channel_ring (fw : firmware) :
  let f := frequency_of fw in
  (f = 4125 ->
     map (fun n => frequency_of (Nat.iter n incrementFrequency fw)) (seq 0 128) = channels /\
     map (fun n => frequency_of (Nat.iter n decrementFrequency fw)) (seq 1 128) =
       rev channels) /\
  (on_grid f ->
     frequency_of (Nat.iter 128 incrementFrequency fw) = f /\
     frequency_of (Nat.iter 128 decrementFrequency fw) = f /\
     forall n, (0 < n < 128)%nat ->
       frequency_of (Nat.iter n incrementFrequency fw) <> f /\
       frequency_of (Nat.iter n decrementFrequency fw) <> f).
Proof.
  intros f. subst f. split.
  - intros E. split.
    + erewrite map_ext by (intros n; apply iter_up_frequency).
      rewrite E. vm_compute. reflexivity.
    + erewrite map_ext by (intros n; apply iter_down_frequency).
      rewrite E. vm_compute. reflexivity.
  - intros G. apply on_grid_channels in G.
    assert (P : forallb (fun g =>
                  (Nat.iter 128 channel_up g =? g) && (Nat.iter 128 channel_down g =? g) &&
                  negb (comes_back channel_up 127 g g) &&
                  negb (comes_back channel_down 127 g g))
                channels = true) by (vm_compute; reflexivity).
    rewrite forallb_forall in P. specialize (P _ G).
    apply andb_prop in P. destruct P as [P Q2]. apply andb_prop in P. destruct P as [P Q1].
    apply andb_prop in P. destruct P as [U D].
    apply negb_true_iff in Q1, Q2.
    rewrite !iter_up_frequency, !iter_down_frequency.
    split; [apply Z.eqb_eq; exact U |]. split; [apply Z.eqb_eq; exact D |].
    intros n R. rewrite !iter_up_frequency, !iter_down_frequency.
    split; [apply (comes_back_false _ 127 _ _ Q1) | apply (comes_back_false _ 127 _ _ Q2)]; lia.
Qed.

Lemma channel_ring_witness :
  frequency_of (Nat.iter 128 incrementFrequency (power_on erased)) = 47125.
Proof.
  destruct (channel_ring (power_on erased)) as (_ & R).
  apply R. apply on_grid_power_on.
Defined.

(** X13: no two channels of the raster are shown with the same label: two
    raster frequencies with the same tag and the same non-zero channel
    number are the same frequency. *)
Theorem channel_labels_distinct (f g : Z) :
  on_grid f -> on_grid g ->
  channelNumber f <> 0 ->
  channelLabel f = channelLabel g ->
  f = g.
Proof.
  intros F G N E. apply on_grid_channels in F, G.
  assert (P : forallb (fun a => forallb (fun b =>
                implb (same_label a b && negb (channelNumber a =? 0)) (a =? b))
                channels) channels = true) by (vm_compute; reflexivity).
  rewrite forallb_forall in P. specialize (P f F).
  rewrite forallb_forall in P. specialize (P g G).
  unfold same_label, channelDig3, channelNumber in P. rewrite E in P.
  rewrite !Z.eqb_refl in P.
  apply Z.eqb_neq in N. unfold channelNumber in N. rewrite E in N. rewrite N in P.
  cbn in P. apply Z.eqb_eq. exact P.
Qed.

Lemma channel_labels_distinct_witness :
  on_grid 47125 /\ channelNumber 47125 <> 0 /\ 47125 = 47125.
Proof.
  assert (G : on_grid 47125) by (right; right; split; [lia | reflexivity]).
  assert (N : channelNumber 47125 <> 0) by (vm_compute; discriminate).
  split; [exact G |]. split; [exact N |].
  exact (channel_labels_distinct 47125 47125 G G N eq_refl).
Defined.

(** ** What the display shows *)

(** Settle every equality test of the goal that the hypotheses decide. *)
Ltac settle_eqs :=
  repeat match goal with
  | |- context [Z.eqb ?a ?b] =>
      first [ rewrite (proj2 (Z.eqb_eq a b)) by lia
            | rewrite (proj2 (Z.eqb_neq a b)) by lia ]
  end.

(** X14: for a frequency below 10000 MHz the six digit cells of the line
    spell the frequency: read as decimal digits, with a blank as 0, they
    give back [frequencyTimes100], the point stands between the hundreds
    and the tens, the last four are always digits, and the first two are
    blank exactly when they would be leading zeros. *)
Theorem displayed_frequency (fw : firmware) (SFD TPEN f : Z) :
  0 <= f < 1000000 ->
  let c := fun i => nth i (display_text fw SFD TPEN f) 0 in
  digit_value (c 4%nat) * 100000 + digit_value (c 5%nat) * 10000 +
  digit_value (c 6%nat) * 1000 + digit_value (c 7%nat) * 100 +
  digit_value (c 9%nat) * 10 + digit_value (c 10%nat) = f /\
  c 8%nat = chr "." /\
  (c 4%nat = chr " " <-> f < 100000) /\
  (c 5%nat = chr " " <-> f < 10000) /\
  (100000 <= f -> is_digit (c 4%nat)) /\
  (10000 <= f -> is_digit (c 5%nat)) /\
  is_digit (c 6%nat) /\ is_digit (c 7%nat) /\ is_digit (c 9%nat) /\ is_digit (c 10%nat).
Proof.
  intros R c. subst c. unfold display_text. cbn [nth].
  unfold digit_value, is_digit, uint8_t.
  change (chr " ") with 32. change (chr ".") with 46. change (2 ^ 8) with 256.
  rewrite (Z.mod_small (f / 100000) 256) by lia.
  rewrite (Z.mod_small (f / 10000 mod 10) 256) by lia.
  assert (D1 : f / 10 / 10 = f / 100) by (rewrite Z.div_div by lia; reflexivity).
  assert (D2 : f / 100 / 10 = f / 1000) by (rewrite Z.div_div by lia; reflexivity).
  assert (D3 : f / 1000 / 10 = f / 10000) by (rewrite Z.div_div by lia; reflexivity).
  assert (D4 : f / 10000 / 10 = f / 100000) by (rewrite Z.div_div by lia; reflexivity).
  pose proof (Z.div_mod f 10 ltac:(lia)) as M0.
  pose proof (Z.div_mod (f / 10) 10 ltac:(lia)) as M1.
  pose proof (Z.div_mod (f / 100) 10 ltac:(lia)) as M2.
  pose proof (Z.div_mod (f / 1000) 10 ltac:(lia)) as M3.
  pose proof (Z.div_mod (f / 10000) 10 ltac:(lia)) as M4.
  rewrite D1 in M1. rewrite D2 in M2. rewrite D3 in M3. rewrite D4 in M4.
  pose proof (Z.mod_pos_bound f 10 ltac:(lia)) as B0.
  pose proof (Z.mod_pos_bound (f / 10) 10 ltac:(lia)) as B1.
  pose proof (Z.mod_pos_bound (f / 100) 10 ltac:(lia)) as B2.
  pose proof (Z.mod_pos_bound (f / 1000) 10 ltac:(lia)) as B3.
  pose proof (Z.mod_pos_bound (f / 10000) 10 ltac:(lia)) as B4.
  assert (B5 : 0 <= f / 100000 < 10)
    by (split; [apply Z.div_pos; lia | apply Z.div_lt_upper_bound; lia]).
  remember (f / 100000) as d6 eqn:E6. remember (f / 10000 mod 10) as d5 eqn:E5.
  remember (f / 10000) as q4 eqn:Q4. remember (f / 1000 mod 10) as d4 eqn:E4.
  remember (f / 1000) as q3 eqn:Q3. remember (f / 100 mod 10) as d3 eqn:E3.
  remember (f / 100) as q2 eqn:Q2. remember (f / 10 mod 10) as d2 eqn:E2.
  remember (f / 10) as q1 eqn:Q1. remember (f mod 10) as d1 eqn:E1.
  clear D1 D2 D3 D4 E6 E5 Q4 E4 Q3 E3 Q2 E2 Q1 E1.
  destruct (Z.eqb_spec d6 0) as [Z6 | Z6]; destruct (Z.eqb_spec d5 0) as [Z5 | Z5];
    cbn [andb]; try change (32 =? 32) with true; cbv iota;
    settle_eqs; repeat split; intros; lia.
Qed.

Lemma displayed_frequency_witness :
  nth 4 (display_text (power_on erased) 2 1 102325) 0 = 49 /\
  nth 5 (display_text (power_on erased) 2 1 4125) 0 = chr " ".
Proof.
  destruct (displayed_frequency (power_on erased) 2 1 4125) as (_ & _ & _ & B & _); [lia |].
  split; [reflexivity | apply B; lia].
Defined.

(** X15: below 1103.25 MHz the channel number stays below 100, and a
    labelled channel is shown with its tag and the two decimal digits of
    its number, tens first; the number is 0 exactly when the tag is the
    dash, and then both digit cells show a dash too. *)
Theorem channel_digits (f : Z) :
  0 <= f < 110325 ->
  let n := channelNumber f in
  0 <= n <= 99 /\
  (n = 0 <-> channelDig3 f = chr "-") /\
  (n <> 0 ->
     is_digit (channelDig2 f) /\ is_digit (channelDig1 f) /\
     10 * (channelDig2 f - 48) + (channelDig1 f - 48) = n) /\
  (n = 0 -> channelDig2 f = chr "-" /\ channelDig1 f = chr "-").
Proof.
  intros R n. subst n. unfold channelDig2, channelDig1, channelDig3, channelNumber.
  assert (T : 0 <= f < 2 ^ 32) by lia.
  destruct (channelLabel_rows f T) as (R1 & R2 & R3 & R4 & R5 & R6 & R7).
  assert (C : 47125 <= f \/ 30325 <= f < 47125 \/ 23125 <= f < 30325 \/
              17525 <= f < 23125 \/ 10525 <= f < 17525 \/ 4025 <= f < 6925 \/
              (f < 4025 \/ 6925 <= f < 10525)) by lia.
  destruct C as [C | [C | [C | [C | [C | [C | C]]]]]];
    [ rewrite (R1 C); rewrite (Z.mod_small _ 256) by lia
    | rewrite (R2 C) | rewrite (R3 C) | rewrite (R4 C) | rewrite (R5 C)
    | rewrite (R6 C) | rewrite (R7 C) ];
    clear R1 R2 R3 R4 R5 R6 R7; cbn [fst snd];
    try match goal with |- context [?a / ?k + ?b] =>
      let q := fresh "q" in
      assert (Q : 0 <= a / k + b - b) by (apply Z.div_pos; lia);
      assert (Q' : a / k + b - b <= 99 - b) by (apply Z.div_le_upper_bound; lia);
      remember (a / k + b) as q; clear Heqq
    end.
  all: unfold is_digit, uint8_t; change (chr "-") with 45;
       change (chr "C") with 67; change (chr "S") with 83.
  all: settle_eqs; cbv iota; try rewrite !(Z.mod_small _ (2 ^ 8)) by lia;
       repeat split; intros; try discriminate; try lia.
Qed.

Lemma channel_digits_witness :
  10 * (channelDig2 47125 - 48) + (channelDig1 47125 - 48) = 21.
Proof.
  destruct (channel_digits 47125) as (_ & _ & D & _); [lia |].
  destruct D as (_ & _ & D); [vm_compute; discriminate |]. exact D.
Defined.

(** ** The persisted block, continued *)

Lemma byte_sum_range (p : list Z) :
  Forall is_byte p -> 0 <= fold_right Z.add 0 p <= 255 * Z.of_nat (List.length p).
Proof.
  induction 1 as [| b p B _ IH]; cbn [fold_right List.length]; [lia |].
  unfold is_byte in B. lia.
Qed.

Lemma cells_of_block (e e' : Z -> Z) :
  block_cells e' = block_cells e ->
  forall a, 0 <= a < 10 -> e' a = e a.
Proof.
  unfold block_cells, CURRENTSETTINGS_ADDRESS.
  cbn [eeprom_read_block Z.add Pos.add Pos.succ]. intros E a R.
  injection E as E0 E1 E2 E3 E4 E5 E6 E7 E8 E9.
  assert (C : a = 0 \/ a = 1 \/ a = 2 \/ a = 3 \/ a = 4 \/ a = 5 \/ a = 6 \/
              a = 7 \/ a = 8 \/ a = 9) by lia.
  destruct C as [C | [C | [C | [C | [C | [C | [C | [C | [C | C]]]]]]]]]; subst a; assumption.
Qed.

Lemma save_block (fw : firmware) :
  let s := currentSettings fw in
  let c := fold_right Z.add 0 (settings_bytes s) in
  block_cells (eeprom (snd (currentSettings_save fw))) =
    [0x45; 0x4E] ++ settings_bytes s ++ [c mod 256; c / 256] /\
  0 <= c <= 1530.
Proof.
  intros s c.
  destruct (save_cells fw) as (E0 & E1 & EB & E8 & E9 & _).
  pose proof (byte_sum_range _ (settings_bytes_range s)) as R.
  change (Z.of_nat (List.length (settings_bytes s))) with 6 in R. fold c in R.
  split; [| lia].
  change (block_cells (eeprom (snd (currentSettings_save fw)))) with
    (let e := eeprom (snd (currentSettings_save fw)) in
     e 0 :: e 1 :: eeprom_read_block 2 6 e ++ [e 8; e 9]).
  cbv zeta. rewrite E0, E1, EB, E8, E9, checksum_of_sum. fold s c.
  unfold settings_bytes. cbn [app].
  repeat (apply (f_equal2 (@cons Z)); [reflexivity || lia |]). reflexivity.
Qed.

(** X16: [currentSettings_save] writes the ten cells 0..9 and nothing
    else: the header bytes 0x45 and 0x4E, the six bytes of the settings and
    the byte sum, which is at most 1530, low byte first.  It changes no
    global variable, and saving again rewrites the same ten bytes. *)
Theorem save_layout (fw : firmware) :
  let s := currentSettings fw in
  let saved := snd (currentSettings_save fw) in
  let c := fold_right Z.add 0 (settings_bytes s) in
  block_cells (eeprom saved) = [0x45; 0x4E] ++ settings_bytes s ++ [c mod 256; c / 256] /\
  0 <= c <= 1530 /\
  (forall a, a < 0 \/ 10 <= a -> eeprom saved a = eeprom fw a) /\
  currentSettings saved = s /\
  frequencyDivisor saved = frequencyDivisor fw /\
  function saved = function fw /\
  lcd saved = lcd fw /\
  wire saved = wire fw /\
  (forall a, eeprom (snd (currentSettings_save saved)) a = eeprom saved a) /\
  (0 <= testPatternEnable s < 2 ^ 8 -> 0 <= standard s < 2 ^ 8 ->
   0 <= frequencyTimes100 s < 2 ^ 32 ->
   settings_bytes s =
     [ testPatternEnable s; standard s;
       frequencyTimes100 s mod 256; frequencyTimes100 s / 256 mod 256;
       frequencyTimes100 s / 65536 mod 256; frequencyTimes100 s / 16777216 ]).
Proof.
  intros s saved c.
  destruct (save_block fw) as [B R]. fold s saved c in B, R.
  destruct (save_cells fw) as (_ & _ & _ & _ & _ & O). fold saved in O.
  split; [exact B |]. split; [exact R |]. split; [exact O |].
  do 5 (split; [reflexivity |]).
  split.
  - intros a. destruct (save_block saved) as [B2 _].
    destruct (save_cells saved) as (_ & _ & _ & _ & _ & O2).
    destruct (Z.lt_ge_cases a 0) as [L | L]; [apply O2; lia |].
    destruct (Z.lt_ge_cases a 10) as [M | M]; [| apply O2; lia].
    apply cells_of_block; [| lia].
    rewrite B2. change (currentSettings saved) with s. fold c. symmetry. exact B.
  - intros T S F. unfold settings_bytes, uint8_t. fold s.
    rewrite !shiftr_n by lia.
    change (2 ^ 8) with 256. change (2 ^ 16) with 65536. change (2 ^ 24) with 16777216.
    change (2 ^ 32) with 4294967296 in F.
    repeat (apply (f_equal2 (@cons Z)); [lia |]). reflexivity.
Qed.

Lemma save_layout_witness :
  settings_bytes default_settings = [1; 2; 47125 mod 256; 47125 / 256 mod 256; 0; 0].
Proof.
  destruct (save_layout (power_on erased)) as (_ & _ & _ & _ & _ & _ & _ & _ & _ & L).
  apply L; cbn; lia.
Defined.

Lemma settings_bytes_image (p : list Z) :
  Forall is_byte p -> List.length p = 6%nat ->
  settings_bytes (settings_of_bytes p) = p /\
  0 <= testPatternEnable (settings_of_bytes p) < 2 ^ 8 /\
  0 <= standard (settings_of_bytes p) < 2 ^ 8 /\
  0 <= frequencyTimes100 (settings_of_bytes p) < 2 ^ 32.
Proof.
  intros B L.
  do 6 (destruct p as [| ? p]; [discriminate L |]). destruct p; [| discriminate L].
  repeat match goal with
  | H : Forall _ (_ :: _) |- _ => inversion H; subst; clear H
  end.
  unfold is_byte in *.
  unfold settings_bytes, settings_of_bytes, uint8_t.
  cbn [nth testPatternEnable standard frequencyTimes100].
  rewrite (word_join _ _ 8) by lia.
  rewrite (word_join _ _ 16) by lia.
  rewrite (word_join _ _ 24) by lia.
  rewrite !shiftr_n by lia.
  change (2 ^ 8) with 256. change (2 ^ 16) with 65536. change (2 ^ 24) with 16777216.
  change (2 ^ 32) with 4294967296.
  split; [| lia].
  repeat (apply (f_equal2 (@cons Z)); [lia |]). reflexivity.
Qed.

(** X17: a block of bytes that [currentSettings_load] accepts yields
    settings within the range of their types whose byte image is the stored
    one, so saving them again rewrites the EEPROM with the bytes it already
    held: load followed by save leaves every cell as it was. *)
Theorem load_then_save (fw : firmware) :
  Forall is_byte (block_cells (eeprom fw)) ->
  fst (currentSettings_load fw) = 0 ->
  let loaded := snd (currentSettings_load fw) in
  let s := currentSettings loaded in
  0 <= testPatternEnable s < 2 ^ 8 /\
  0 <= standard s < 2 ^ 8 /\
  0 <= frequencyTimes100 s < 2 ^ 32 /\
  settings_bytes s = eeprom_read_block 2 6 (eeprom fw) /\
  eeprom loaded = eeprom fw /\
  forall a, eeprom (snd (currentSettings_save loaded)) a = eeprom fw a.
Proof.
  intros B A loaded s.
  destruct (load_verdict fw) as [[_ V] | [V _]]; [| rewrite A in V; discriminate].
  assert (S : s = settings_of_bytes (eeprom_read_block 2 6 (eeprom fw)))
    by (unfold s, loaded; rewrite V; reflexivity).
  assert (E : eeprom loaded = eeprom fw) by (unfold loaded; rewrite V; reflexivity).
  assert (P : Forall is_byte (eeprom_read_block 2 6 (eeprom fw))).
  { change (block_cells (eeprom fw)) with
      ([eeprom fw 0; eeprom fw 1] ++ eeprom_read_block 2 6 (eeprom fw) ++
       [eeprom fw 8; eeprom fw 9]) in B.
    apply Forall_app in B. destruct B as [_ B].
    apply Forall_app in B. destruct B as [B _]. exact B. }
  destruct (settings_bytes_image _ P eq_refl) as (I & T1 & T2 & T3).
  rewrite <- S in I, T1, T2, T3.
  split; [exact T1 |]. split; [exact T2 |]. split; [exact T3 |].
  split; [exact I |]. split; [exact E |].
  intros a.
  destruct (save_cells loaded) as (_ & _ & _ & _ & _ & O).
  destruct (Z.lt_ge_cases a 0) as [L | L]; [rewrite O, E by lia; reflexivity |].
  destruct (Z.lt_ge_cases a 10) as [M | M]; [| rewrite O, E by lia; reflexivity].
  apply cells_of_block; [| lia].
  destruct (save_block loaded) as [K R]. rewrite K. fold s. rewrite I.
  apply (load_accepts_iff fw B) in A. destruct A as (A0 & A1 & A8).
  pose proof (byte_sum_range _ P) as Q.
  change (Z.of_nat (List.length (eeprom_read_block 2 6 (eeprom fw)))) with 6 in Q.
  change (block_cells (eeprom fw)) with
    ([eeprom fw 0; eeprom fw 1] ++ eeprom_read_block 2 6 (eeprom fw) ++
     [eeprom fw 8; eeprom fw 9]).
  rewrite A0, A1.
  assert (B8 : is_byte (eeprom fw 8) /\ is_byte (eeprom fw 9)).
  { change (block_cells (eeprom fw)) with
      ([eeprom fw 0; eeprom fw 1] ++ eeprom_read_block 2 6 (eeprom fw) ++
       [eeprom fw 8; eeprom fw 9]) in B.
    apply Forall_app in B. destruct B as [_ B].
    apply Forall_app in B. destruct B as [_ B].
    inversion B as [| ? ? H8 B']; subst. inversion B' as [| ? ? H9 _]; subst. auto. }
  destruct B8 as [B8 B9]. unfold is_byte in B8, B9.
  rewrite block_of_cells in Q |- *. cbn [fold_right] in Q |- *.
  cbn [app]. repeat (apply (f_equal2 (@cons Z)); [reflexivity || lia |]). reflexivity.
Qed.

Lemma load_then_save_witness :
  let fw := snd (currentSettings_save (power_on erased)) in
  eeprom (snd (currentSettings_save (snd (currentSettings_load fw)))) 4 = eeprom fw 4.
Proof.
  intros fw.
  destruct (load_then_save fw) as (_ & _ & _ & _ & _ & S);
    [apply save_cells_bytes | vm_compute; reflexivity |].
  apply S.
Defined.

(** ** Reading a frame back *)

(** X18: the frame [writeConfig] sends can be read back: the four bytes
    determine the low six bits of the divisor exponent (two in FL, two in
    C1, two in C0), the low two bits of the standard, bit 0 of the test
    pattern flag and the low twelve bits of the frequency word; bit 7 of C1
    is set and every other bit of the frame is 0. *)
Theorem frame_fields (fw : firmware) :
  let X := frequencyDivisor fw in
  let s := currentSettings fw in
  let bits := frequencyBits fw (frequencyTimes100 s) in
  exists C1 C0 FM FL,
    frame_of fw = mkTransmission 0x65 [C1; C0; FM; FL] /\
    X mod 64 = FL mod 4 + 4 * (C1 / 2 mod 4) + 16 * (C0 mod 4) /\
    standard s mod 4 = C0 / 8 mod 4 /\
    testPatternEnable s mod 2 = FM / 64 /\
    bits mod 4096 = 64 * (FM mod 64) + FL / 4 /\
    C1 / 128 = 1 /\ C1 mod 2 = 0 /\ C1 / 8 mod 16 = 0 /\
    C0 / 4 mod 2 = 0 /\ C0 / 32 = 0 /\ FM / 128 = 0.
Proof.
  intros X s bits. do 4 eexists. split; [reflexivity |].
  fold X s bits.
  rewrite byteC1_value, byteC0_value, byteFL_value.
  rewrite byteFM_value by apply frequencyBits_range.
  pose proof (frequencyBits_range fw (frequencyTimes100 s)) as B. fold bits in B.
  change (2 ^ 16) with 65536 in B.
  assert (Q1 : X / 4 / 4 = X / 16) by (rewrite Z.div_div by lia; reflexivity).
  assert (Q2 : X / 16 / 4 = X / 64) by (rewrite Z.div_div by lia; reflexivity).
  assert (Q3 : bits / 64 / 64 = bits / 4096) by (rewrite Z.div_div by lia; reflexivity).
  pose proof (Z.div_mod X 4 ltac:(lia)) as M0.
  pose proof (Z.div_mod (X / 4) 4 ltac:(lia)) as M1.
  pose proof (Z.div_mod (X / 16) 4 ltac:(lia)) as M2.
  pose proof (Z.div_mod X 64 ltac:(lia)) as M3.
  pose proof (Z.div_mod bits 64 ltac:(lia)) as N0.
  pose proof (Z.div_mod (bits / 64) 64 ltac:(lia)) as N1.
  pose proof (Z.div_mod bits 4096 ltac:(lia)) as N2.
  rewrite Q1 in M1. rewrite Q2 in M2. rewrite Q3 in N1.
  pose proof (Z.mod_pos_bound X 4 ltac:(lia)).
  pose proof (Z.mod_pos_bound (X / 4) 4 ltac:(lia)).
  pose proof (Z.mod_pos_bound (X / 16) 4 ltac:(lia)).
  pose proof (Z.mod_pos_bound X 64 ltac:(lia)).
  pose proof (Z.mod_pos_bound bits 64 ltac:(lia)).
  pose proof (Z.mod_pos_bound (bits / 64) 64 ltac:(lia)).
  pose proof (Z.mod_pos_bound bits 4096 ltac:(lia)).
  pose proof (Z.mod_pos_bound (standard s) 4 ltac:(lia)).
  pose proof (Z.mod_pos_bound (testPatternEnable s) 2 ltac:(lia)).
  clear Q1 Q2 Q3 B.
  remember (X mod 4) as x0. remember (X / 4 mod 4) as x1. remember (X / 16 mod 4) as x2.
  remember (X mod 64) as xl. remember (bits mod 64) as b0.
  remember (bits / 64 mod 64) as b1. remember (bits mod 4096) as bl.
  remember (standard s mod 4) as st. remember (testPatternEnable s mod 2) as tp.
  remember (X / 4) as q1. remember (X / 16) as q2. remember (X / 64) as q3.
  remember (bits / 64) as p1. remember (bits / 4096) as p2.
  clear Heqx0 Heqx1 Heqx2 Heqxl Heqb0 Heqb1 Heqbl Heqst Heqtp Heqq1 Heqq2 Heqq3 Heqp1 Heqp2.
  repeat split; lia.
Qed.

(** ** The line on the display *)

(** X19: on a display of sixteen cells [writeConfig] rewrites the line:
    afterwards there are still sixteen cells and, for a function within
    0..3, the cursor is on the column of the function in force.  Every cell
    but the one of the standard holds the character of the settings line,
    nothing of what was shown before, and a second call leaves it as it is;
    for a standard within 0..3 this holds of the whole line, the cell of the
    standard showing [standards[standard]]. *)
Theorem display_line (fw : firmware) :
  List.length (cells (lcd fw)) = 16%nat ->
  let s := currentSettings fw in
  let text := map uint8_t (display_text fw (standard s) (testPatternEnable s)
                             (frequency_of fw)) in
  let shown := cells (lcd (writeConfig fw)) in
  List.length shown = 16%nat /\
  (0 <= function fw <= 3 ->
     cursor (lcd (writeConfig fw)) = nth (Z.to_nat (function fw)) fnCursorPositions 0) /\
  (forall i : nat, i <> 14%nat ->
     nth i shown 0 = nth i text 0 /\
     (forall l, List.length (cells l) = 16%nat ->
        nth i (cells (lcd (writeConfig (set_lcd l fw)))) 0 = nth i shown 0) /\
     nth i (cells (lcd (writeConfig (writeConfig fw)))) 0 = nth i shown 0) /\
  (0 <= standard s <= 3 ->
     shown = text /\
     (forall l, List.length (cells l) = 16%nat ->
        cells (lcd (writeConfig (set_lcd l fw))) = shown) /\
     cells (lcd (writeConfig (writeConfig fw))) = shown).
Proof.
  intros L s text shown.
  destruct (writeConfig_display fw L) as (Ln & C & T & K).
  fold s text shown in Ln, C, T.
  destruct (writeConfig_effect fw) as (_ & S & D & _).
  destruct (writeConfig_display (writeConfig fw) Ln) as (_ & C2 & T2 & _).
  unfold frequency_of in C2, T2.
  rewrite S, (display_text_ext fw (writeConfig fw) _ _ _ D) in C2, T2.
  fold (frequency_of fw) in C2, T2. fold s text in C2, T2.
  split; [exact Ln |]. split; [exact K |]. split.
  - intros i N. split; [apply C, N |]. split.
    + intros l Ll. destruct (writeConfig_display (set_lcd l fw) Ll) as (_ & C3 & _).
      rewrite (C3 i N), (C i N). reflexivity.
    + rewrite (C2 i N), (C i N). reflexivity.
  - intros R. split; [apply T, R |]. split.
    + intros l Ll. destruct (writeConfig_display (set_lcd l fw) Ll) as (_ & _ & T3 & _).
      rewrite (T3 R), (T R). reflexivity.
    + rewrite (T2 R), (T R). reflexivity.
Qed.

Lemma display_line_witness :
  cells (lcd (writeConfig (power_on erased))) =
    map chr (list_ascii_of_string "C21  471.25 1 IT") /\
  cursor (lcd (writeConfig (power_on erased))) = 16.
Proof.
  destruct (display_line (power_on erased)) as (_ & K & _ & C); [reflexivity |].
  destruct C as (C & _); [vm_compute; split; discriminate |].
  split; [rewrite C; vm_compute; reflexivity |].
  rewrite K; [reflexivity | vm_compute; split; discriminate].
Defined.

Lemma operated_frame_witness :
  wire (writeConfig (setup true (power_on erased))) =
    wire (setup true (power_on erased)) ++ [mkTransmission 0x65 [128; 16; 93; 116]].
Proof.
  rewrite (operated_frame (setup true (power_on erased))
             (operated_setup erased true (or_introl eq_refl))).
  vm_compute. reflexivity.
Defined.

(** ** Machine integers stay in range *)

Lemma typed_ext (fw fw' : firmware) :
  currentSettings fw' = currentSettings fw ->
  frequencyDivisor fw' = frequencyDivisor fw ->
  function fw' = function fw ->
  typed fw -> typed fw'.
Proof. unfold typed. intros S D F T. rewrite S, D, F. exact T. Qed.

Lemma typed_setFrequencyDivider (fw : firmware) :
  0 <= testPatternEnable (currentSettings fw) < 2 ^ 8 ->
  0 <= standard (currentSettings fw) < 2 ^ 8 ->
  0 <= frequencyTimes100 (currentSettings fw) < 2 ^ 32 ->
  0 <= function fw < 2 ^ 8 ->
  typed (setFrequencyDivider fw).
Proof.
  intros T S F Fn. unfold typed. rewrite setFrequencyDivider_settings.
  repeat split; try lia;
    unfold setFrequencyDivider; split_tests; cbn; lia.
Qed.

Lemma step_exact (fw : firmware) :
  0 <= frequency_of fw < 2 ^ 32 ->
  (frequency_of (incrementFrequency fw) = frequency_of fw + 700 \/
   frequency_of (incrementFrequency fw) = frequency_of fw + 800 \/
   frequency_of (incrementFrequency fw) = frequency_of fw + 900 \/
   frequency_of (incrementFrequency fw) = 4125) /\
  (frequency_of (decrementFrequency fw) = frequency_of fw - 700 \/
   frequency_of (decrementFrequency fw) = frequency_of fw - 800 \/
   frequency_of (decrementFrequency fw) = frequency_of fw - 900 \/
   frequency_of (decrementFrequency fw) = 102325) /\
  0 <= frequency_of (incrementFrequency fw) <= 103224 /\
  0 <= frequency_of (decrementFrequency fw) < 2 ^ 32.
Proof.
  intros R. unfold frequency_of in *. unfold incrementFrequency, decrementFrequency.
  rewrite !setFrequencyDivider_settings. unfold_ints.
  set (f := frequencyTimes100 (currentSettings fw)) in *.
  split_tests;
    cbn [andb currentSettings frequencyTimes100 set_frequencyTimes100 set_currentSettings];
    rewrite ?Z.mod_small by lia; lia.
Qed.

Lemma typed_steps (fw : firmware) :
  typed fw -> typed (incrementFrequency fw) /\ typed (decrementFrequency fw).
Proof.
  intros (T & S & F & D & Fn).
  destruct (step_exact fw F) as (_ & _ & U & V).
  destruct (incrementFrequency_keeps fw) as (I1 & I2 & _ & I4 & _).
  destruct (decrementFrequency_keeps fw) as (D1 & D2 & _ & D4 & _).
  pose proof (in_sync_incrementFrequency fw) as YI.
  pose proof (in_sync_decrementFrequency fw) as YD.
  unfold in_sync in YI, YD.
  assert (B : forall x, 0 <= frequencyDivisor (setFrequencyDivider x) <= 4)
    by (intros x; unfold setFrequencyDivider; split_tests; cbn; lia).
  unfold typed, frequency_of in *.
  rewrite I1, I2, I4, D1, D2, D4, <- YI, <- YD.
  repeat split; try lia; apply B.
Qed.

(** X20: no operation produces a value outside the range of its C type.
    From a state whose globals are within their types, every button event,
    [writeConfig] and [currentSettings_save] end in such a state, and so do
    [currentSettings_load] and [setup] when the ten cells of the block hold
    bytes.  A channel step is exact integer arithmetic on any 32-bit
    frequency: up gives the frequency plus 700, 800 or 900, or 4125, and
    down the frequency minus one of these, or 102325; the 32-bit
    wrap-around is never used. *)
Theorem types_respected (fw : firmware) :
  typed fw ->
  (forall ev, typed (handleFEvent ev fw)) /\
  (forall b ev, typed (handleUDEvent b ev fw)) /\
  typed (writeConfig fw) /\
  typed (snd (currentSettings_save fw)) /\
  (Forall is_byte (block_cells (eeprom fw)) -> typed (snd (currentSettings_load fw))) /\
  (Forall is_byte (block_cells (eeprom fw)) ->
     forall held, typed (setup held (power_on (eeprom fw)))) /\
  (frequency_of (incrementFrequency fw) = frequency_of fw + 700 \/
   frequency_of (incrementFrequency fw) = frequency_of fw + 800 \/
   frequency_of (incrementFrequency fw) = frequency_of fw + 900 \/
   frequency_of (incrementFrequency fw) = 4125) /\
  (frequency_of (decrementFrequency fw) = frequency_of fw - 700 \/
   frequency_of (decrementFrequency fw) = frequency_of fw - 800 \/
   frequency_of (decrementFrequency fw) = frequency_of fw - 900 \/
   frequency_of (decrementFrequency fw) = 102325).
Proof.
  intros T.
  assert (W : forall x, typed x -> typed (writeConfig x)).
  { intros x Tx. destruct (writeConfig_effect x) as (_ & S & D & F & _).
    apply (typed_ext x); assumption. }
  assert (L : forall x, Forall is_byte (block_cells (eeprom x)) -> typed x ->
              typed (snd (currentSettings_load x))).
  { intros x B Tx. destruct (load_verdict x) as [[_ V] | [_ V]]; rewrite V; [| exact Tx].
    assert (P : Forall is_byte (eeprom_read_block 2 6 (eeprom x))).
    { change (block_cells (eeprom x)) with
        ([eeprom x 0; eeprom x 1] ++ eeprom_read_block 2 6 (eeprom x) ++
         [eeprom x 8; eeprom x 9]) in B.
      apply Forall_app in B. destruct B as [_ B].
      apply Forall_app in B. destruct B as [B _]. exact B. }
    destruct (settings_bytes_image _ P eq_refl) as (_ & T1 & T2 & T3).
    destruct Tx as (_ & _ & _ & D & Fn). unfold typed.
    cbn [currentSettings frequencyDivisor function set_currentSettings].
    repeat split; lia. }
  split.
  { intros ev. destruct T as (T1 & T2 & T3 & D & Fn).
    destruct (handleFEvent_cases ev fw)
      as [(S & Dv & F & _) | [(S & Dv & F & _) | U]].
    - unfold typed. rewrite S, Dv. repeat split; lia.
    - unfold typed. rewrite S, Dv, F. unfold fnIdle. repeat split; lia.
    - rewrite U. unfold typed. repeat split; lia. }
  split.
  { intros b ev. destruct (typed_steps fw T) as [TI TD].
    pose proof T as (T1 & T2 & T3 & D & Fn).
    unfold handleUDEvent.
    destruct ev; try exact T; destruct b; try exact T;
      repeat match goal with
      | |- context [if ?c then _ else _] => destruct c
      end;
      try exact T; apply W; try assumption;
      unfold typed, uint8_t;
      cbn [currentSettings frequencyDivisor function set_standard set_testPatternEnable
           set_currentSettings testPatternEnable standard frequencyTimes100];
      repeat split; lia. }
  split; [apply W; exact T |].
  split; [apply (typed_ext fw); [reflexivity | reflexivity | reflexivity | exact T] |].
  split; [intros B; apply L; assumption |].
  split.
  { intros B held. unfold setup. apply W.
    assert (P : forall l, typed (set_lcd l (power_on (eeprom fw)))).
    { intros l. unfold typed, power_on, default_settings, fnIdle.
      cbn [currentSettings frequencyDivisor function set_lcd
           testPatternEnable standard frequencyTimes100].
      repeat split; lia. }
    destruct held.
    - apply (typed_ext (set_lcd (mkLcd [] 0) (power_on (eeprom fw))));
        [reflexivity | reflexivity | reflexivity | apply P].
    - apply L; [exact B | apply P]. }
  destruct T as (_ & _ & F & _). destruct (step_exact fw F) as (U & V & _).
  split; assumption.
Qed.

Lemma types_respected_witness :
  typed (handleUDEvent buttonDPin kEventPressed (set_function fnStandard (power_on erased))).
Proof.
  destruct (types_respected (set_function fnStandard (power_on erased))) as (_ & U & _).
  - unfold typed, power_on, default_settings, fnStandard.
    cbn [currentSettings frequencyDivisor function set_function
         testPatternEnable standard frequencyTimes100].
    repeat split; lia.
  - apply U.
Defined.

(** ** Healing an off-raster frequency *)

Lemma channel_up_progress (f : Z) :
  0 <= f < 2 ^ 32 ->
  (102325 <= f /\ channel_up f = 4125) \/
  (f < 102325 /\ f + 700 <= channel_up f <= 103224).
Proof.
  intros R.
  pose proof (channel_up_frequency (set_frequencyTimes100 f (power_on erased))) as E.
  destruct (incrementFrequency_frequency (set_frequencyTimes100 f (power_on erased)))
    as (_ & _ & _ & Uw).
  destruct (step_exact (set_frequencyTimes100 f (power_on erased)) R) as (U & _ & B & _).
  change (frequency_of (set_frequencyTimes100 f (power_on erased))) with f in *.
  rewrite E in *.
  destruct (Z.le_gt_cases 102325 f) as [C | C]; [left; split; [exact C | apply Uw; exact C] |].
  right. split; [exact C |].
  unfold channel_up, frequency_of, incrementFrequency in *.
  rewrite setFrequencyDivider_settings in *. unfold_ints.
  cbn [currentSettings frequencyTimes100 set_frequencyTimes100 set_currentSettings power_on] in *.
  revert U B. split_tests;
    cbn [andb currentSettings frequencyTimes100 set_frequencyTimes100 set_currentSettings];
    rewrite ?Z.mod_small by lia; intros; lia.
Qed.

(** X21: stepping up brings any 32-bit frequency, such as one loaded from
    a block this firmware did not write, onto the channel raster within
    148 steps, by running up to the top and wrapping to 41.25 MHz; from
    then on it stays on the raster. *)
Theorem stepping_up_reaches_raster (fw : firmware) :
  0 <= frequency_of fw < 2 ^ 32 ->
  exists n, (n <= 148)%nat /\
    forall m, (n <= m)%nat ->
      on_grid (frequency_of (Nat.iter m incrementFrequency fw)).
Proof.
  intros R.
  assert (H : forall k : nat, forall f, 0 <= f < 2 ^ 32 ->
            102325 - f <= 700 * Z.of_nat k ->
            exists n, (n <= S k)%nat /\ on_grid (Nat.iter n channel_up f)).
  { induction k as [| k IH]; intros f Rf M.
    - exists 1%nat. split; [lia |]. cbn.
      destruct (channel_up_progress f Rf) as [[_ E] | [C _]]; [| lia].
      rewrite E. left. split; [lia | reflexivity].
    - destruct (channel_up_progress f Rf) as [[_ E] | [C P]].
      + exists 1%nat. split; [lia |]. cbn. rewrite E. left. split; [lia | reflexivity].
      + destruct (IH (channel_up f)) as (n & N & G); [lia | lia |].
        exists (S n). split; [lia |]. rewrite Nat.iter_succ_r. exact G. }
  assert (K : forall m f, on_grid f -> on_grid (Nat.iter m channel_up f)).
  { induction m as [| m IH]; intros f G; [exact G |].
    rewrite Nat.iter_succ.
    pose proof (on_grid_incrementFrequency
                  (set_frequencyTimes100 (Nat.iter m channel_up f) (power_on erased))) as S.
    apply S. apply IH. exact G. }
  destruct (Z.le_gt_cases 102325 (frequency_of fw)) as [C | C].
  - destruct (H 0%nat (frequency_of fw) R) as (n & N & G); [lia |].
    exists n. split; [lia |]. intros m Lm. rewrite iter_up_frequency.
    replace m with ((m - n) + n)%nat by lia. rewrite Nat.iter_add. apply K. exact G.
  - destruct (H 147%nat (frequency_of fw) R) as (n & N & G); [lia |].
    exists n. split; [lia |]. intros m Lm. rewrite iter_up_frequency.
    replace m with ((m - n) + n)%nat by lia. rewrite Nat.iter_add. apply K. exact G.
Qed.

Lemma stepping_up_reaches_raster_witness :
  exists n, (n <= 148)%nat /\
    forall m, (n <= m)%nat ->
      on_grid (frequency_of
        (Nat.iter m incrementFrequency (set_frequencyTimes100 50000 (power_on erased)))).
Proof.
  apply (stepping_up_reaches_raster (set_frequencyTimes100 50000 (power_on erased))).
  unfold frequency_of. cbn. lia.
Defined.

(** ** Writes to the EEPROM *)

(** X22: the EEPROM is written at one place only, a long press of the
    function button while a field is being edited, and then only the ten
    cells of the block change.  No up or down event, no other event of the
    function button, no long press in the idle state and no [setup]
    changes any cell. *)
Theorem eeprom_written_only_by_save (fw : firmware) :
  (forall b ev, eeprom (handleUDEvent b ev fw) = eeprom fw) /\
  (forall ev, ev <> kEventLongPressed -> eeprom (handleFEvent ev fw) = eeprom fw) /\
  (function fw = fnIdle -> eeprom (handleFEvent kEventLongPressed fw) = eeprom fw) /\
  (function fw <> fnIdle ->
     eeprom (handleFEvent kEventLongPressed fw) = eeprom (snd (currentSettings_save fw)) /\
     forall a, a < 0 \/ 10 <= a ->
       eeprom (handleFEvent kEventLongPressed fw) a = eeprom fw a) /\
  (forall held, eeprom (setup held (power_on (eeprom fw))) = eeprom fw).
Proof.
  split; [intros b ev; apply (handleUDEvent_keeps b ev fw) |].
  split.
  { intros ev N. destruct ev; try reflexivity; [| congruence].
    apply (released_keeps fw). }
  split.
  { intros I. unfold handleFEvent. rewrite I. reflexivity. }
  split.
  { intros N. destruct (long_press_keeps fw N) as (_ & _ & _ & E & _).
    destruct (save_cells fw) as (_ & _ & _ & _ & _ & O).
    rewrite E. split; [reflexivity |]. exact O. }
  intros held. apply (setup_facts held (eeprom fw)).
Qed.

Lemma eeprom_written_only_by_save_witness :
  eeprom (handleFEvent kEventLongPressed (power_on erased)) = erased /\
  eeprom (handleFEvent kEventLongPressed (set_function fnChannel (power_on erased))) 0 = 0x45.
Proof.
  destruct (eeprom_written_only_by_save (power_on erased)) as (_ & _ & I & _).
  destruct (eeprom_written_only_by_save (set_function fnChannel (power_on erased)))
    as (_ & _ & _ & S & _).
  split; [apply I; reflexivity |].
  destruct S as [S _]; [discriminate |]. rewrite S. reflexivity.
Defined.
